(** * bookIT: the booking scheduler and the session engine

    A shallow embedding of
      - app/schemas/booking_schema.py   (request validation),
      - app/services/booking_crud.py    (conflict check, create, update),
      - app/security/auth.py            (token issue and verification),
      - app/utils/token_blacklist.py    (the revocation ledger),
      - app/utils/user_app_service.py   (logout, refresh),
    followed by the properties of the specification that concern them.

    Tables are lists of rows in insertion order; [query.filter(..).first()]
    is [find].  A SQLAlchemy session is a state monad over the committed
    store; an exception is a [Raise] result.  *)

From Stdlib Require Import ZArith List String Bool Lia Sorted Permutation.
Import ListNotations.
Local Open Scope Z_scope.

Set Implicit Arguments.

(* ===================================================================== *)
(** ** Exceptions and results *)
(* ===================================================================== *)

(** The exceptions the modelled code raises or catches.  [DBError] is the
    SQLAlchemy error of a failing [db.commit()] or [db.refresh()], and
    [ArgumentError] the one SQLAlchemy raises when a filter compares a
    column with [None] by an operator other than [==] and [!=]. *)
Inductive exn : Type :=
| HTTPException (status_code : Z) (detail : string)
| JWTError
| ValueError (msg : string)
| TypeError
| DBError
| ArgumentError.

Inductive result (A : Type) : Type :=
| Ok (a : A)
| Raise (e : exn).
Arguments Ok {A} a.
Arguments Raise {A} e.

Definition is_ok {A} (r : result A) : bool :=
  match r with Ok _ => true | Raise _ => false end.

(** [except HTTPException: raise / except Exception: raise HTTPException(500, d)] *)
Definition is_http (e : exn) : bool :=
  match e with HTTPException _ _ => true | _ => false end.

(* ===================================================================== *)
(** ** Python datetimes *)
(* ===================================================================== *)

(** A datetime is an instant (seconds since the epoch, read in UTC) and the
    flag [tzinfo is not None].  Ordering a naive against an aware datetime
    raises [TypeError]. *)
Record datetime : Type := mkDatetime { ts : Z; aware : bool }.

Definition replace_tzinfo_utc (v : datetime) : datetime :=
  {| ts := ts v; aware := true |}.

Definition dt_le (a b : datetime) : result bool :=
  if Bool.eqb (aware a) (aware b) then Ok (ts a <=? ts b) else Raise TypeError.

(** [datetime.now(timezone.utc)] for the clock value [now]. *)
Definition utcnow (now : Z) : datetime := {| ts := now; aware := true |}.

(* ===================================================================== *)
(** ** Rows of the tables (app/models) *)
(* ===================================================================== *)

Inductive BookingStatus : Type := pending | confirmed | cancelled | completed.

(** [Booking.status.in_(["pending", "confirmed"])] *)
Definition status_active (s : BookingStatus) : bool :=
  match s with pending | confirmed => true | _ => false end.

Record Booking : Type := mkBooking {
  b_id : string;
  b_user_id : string;
  b_service_id : string;
  b_status : BookingStatus;
  b_start_time : Z;
  b_end_time : Z;
  b_created_at : Z
}.

Record Service : Type := mkService {
  s_id : string;
  s_is_active : bool
}.

Record User : Type := mkUser {
  u_id : string;
  u_email : string;
  u_status : string;
  u_role : string;
  u_is_active : bool
}.

Record token_claims : Type := mkClaims {
  c_sub : option string;
  c_jti : option string;
  c_exp : option Z;
  c_iat : option Z;
  c_type : option string
}.

(** A token string: either not a JWT at all, or claims signed with a key. *)
Inductive token : Type :=
| Garbage (raw : string)
| Jwt (claims : token_claims) (key : string).

Record TokenBlacklist : Type := mkTokenBlacklist {
  tb_jti : string;
  tb_token : token;
  tb_expires_at : Z
}.

(** The committed content of the database. *)
Record Store : Type := mkStore {
  users : list User;
  services : list Service;
  bookings : list Booking;
  token_blacklist : list TokenBlacklist
}.

(** The database as a handler sees it: the committed store and, for each
    coming [db.commit()] or [db.refresh()], in the order they are run,
    whether it fails ([true]); an exhausted list means that every further
    one goes through. *)
Record World : Type := mkWorld {
  store : Store;
  faults : list bool
}.

(* ===================================================================== *)
(** ** The session monad *)
(* ===================================================================== *)

Definition M (A : Type) : Type := World -> result A * World.

Definition ret {A} (a : A) : M A := fun w => (Ok a, w).
Definition raise {A} (e : exn) : M A := fun w => (Raise e, w).
Definition bind {A B} (m : M A) (k : A -> M B) : M B :=
  fun w => match m w with
           | (Ok a, w') => k a w'
           | (Raise e, w') => (Raise e, w')
           end.
Definition try_except {A} (m : M A) (h : exn -> M A) : M A :=
  fun w => match m w with
           | (Ok a, w') => (Ok a, w')
           | (Raise e, w') => h e w'
           end.
Definition get_store : M Store := fun w => (Ok (store w), w).
Definition lift {A} (r : result A) : M A := fun w => (r, w).

Notation "x <- m ;; k" := (bind m (fun x => k))
  (at level 61, m at next level, right associativity).
Notation "m ;;; k" := (bind m (fun _ => k))
  (at level 61, right associativity).

(** [db.commit()] of the session's pending changes, which turn the
    committed store into [pending_store].  A failing commit raises and
    leaves the committed store as it was. *)
Definition commit (pending_store : Store) : M unit := fun w =>
  match faults w with
  | true :: fs => (Raise DBError, {| store := store w; faults := fs |})
  | false :: fs => (Ok tt, {| store := pending_store; faults := fs |})
  | [] => (Ok tt, {| store := pending_store; faults := [] |})
  end.

(** [db.rollback()]: pending changes never reach the committed store, so
    discarding them leaves it as it is. *)
Definition rollback : M unit := ret tt.

(** [db.refresh(obj)]: the row is read again after the commit.  It returns
    the row as committed; a failing re-read raises, and what was committed
    stays. *)
Definition refresh : M unit := fun w =>
  match faults w with
  | true :: fs => (Raise DBError, {| store := store w; faults := fs |})
  | false :: fs => (Ok tt, {| store := store w; faults := fs |})
  | [] => (Ok tt, {| store := store w; faults := [] |})
  end.

(* ===================================================================== *)
(** ** app/schemas/booking_schema.py *)
(* ===================================================================== *)

Record BookingCreate : Type := mkBookingCreate {
  bc_service_id : string;
  bc_start_time : datetime;
  bc_end_time : datetime
}.

(** [BookingBase.start_time_must_be_in_future]; returns the stored value. *)
Definition start_time_must_be_in_future (now : Z) (v : datetime) : result datetime :=
  let v := if aware v then v else replace_tzinfo_utc v in
  match dt_le v (utcnow now) with
  | Raise e => Raise e
  | Ok true => Raise (ValueError "start_time must be in the future")
  | Ok false => Ok v
  end.

(** [BookingBase.end_time_must_be_after_start_time] *)
Definition end_time_must_be_after_start_time (m : BookingCreate) : result BookingCreate :=
  match dt_le (bc_end_time m) (bc_start_time m) with
  | Raise e => Raise e
  | Ok true => Raise (ValueError "end_time must be after start_time")
  | Ok false => Ok m
  end.

(** Construction of a [BookingCreate] from the request body: the field
    validator, then the model validator. *)
Definition BookingCreate_validate (now : Z) (service_id : string)
    (start_time end_time : datetime) : result BookingCreate :=
  match start_time_must_be_in_future now start_time with
  | Raise e => Raise e
  | Ok v => end_time_must_be_after_start_time
              {| bc_service_id := service_id; bc_start_time := v;
                 bc_end_time := end_time |}
  end.

(** A patch field: absent from the body, explicitly null, or a value. *)
Inductive field (A : Type) : Type :=
| Unset
| Null
| Value (a : A).
Arguments Unset {A}.
Arguments Null {A}.
Arguments Value {A} a.

Record BookingUpdate : Type := mkBookingUpdate {
  bu_start_time : field datetime;
  bu_end_time : field datetime;
  bu_status : field BookingStatus
}.

(** [BookingUpdate.end_time_must_be_after_start_time]; a null or absent
    field is falsy and skips the comparison. *)
Definition update_end_time_must_be_after_start_time (m : BookingUpdate) : result BookingUpdate :=
  match bu_end_time m, bu_start_time m with
  | Value e, Value st =>
    match dt_le e st with
    | Raise x => Raise x
    | Ok true => Raise (ValueError "end_time must be after start_time")
    | Ok false => Ok m
    end
  | _, _ => Ok m
  end.

(** [booking_update.model_dump(exclude_unset=True)]: a dict, in field
    order, of the fields present in the body; a null field maps to [None]. *)
Inductive key : Type := k_start_time | k_end_time | k_status.

Inductive value : Type :=
| VTime (d : datetime)
| VStatus (s : BookingStatus).

Definition key_eqb (a b : key) : bool :=
  match a, b with
  | k_start_time, k_start_time | k_end_time, k_end_time | k_status, k_status => true
  | _, _ => false
  end.

Definition dump_field {A} (k : key) (inj : A -> value) (f : field A)
  : list (key * option value) :=
  match f with
  | Unset => []
  | Null => [(k, None)]
  | Value a => [(k, Some (inj a))]
  end.

Definition model_dump (u : BookingUpdate) : list (key * option value) :=
  dump_field k_start_time VTime (bu_start_time u)
  ++ dump_field k_end_time VTime (bu_end_time u)
  ++ dump_field k_status VStatus (bu_status u).

(** [k in d] *)
Definition dict_mem (k : key) (d : list (key * option value)) : bool :=
  existsb (fun kv => key_eqb (fst kv) k) d.

(** [d.get(k, default)]; the inner [None] is Python's [None]. *)
Definition dict_get (k : key) (d : list (key * option value)) (default : option value)
  : option value :=
  match find (fun kv => key_eqb (fst kv) k) d with
  | Some kv => snd kv
  | None => default
  end.

(* ===================================================================== *)
(** ** app/services/booking_crud.py *)
(* ===================================================================== *)

Definition exn_service_not_found : exn :=
  HTTPException 404 "Service not found or is inactive".
Definition exn_conflict : exn :=
  HTTPException 409 "Time slot is already booked for this service".
Definition exn_booking_not_found : exn := HTTPException 404 "Booking not found".
Definition exn_not_authorized : exn :=
  HTTPException 403 "Not authorized to update this booking".
Definition exn_reschedule : exn :=
  HTTPException 400 "Can only reschedule pending or confirmed bookings".
Definition exn_cancel : exn :=
  HTTPException 400 "Can only cancel pending or confirmed bookings".

(** The [or_] of the three [and_] conditions of [_has_time_conflict], for
    the window [start_time, end_time) against the row [b]. *)
Definition conflict_condition (start_time end_time : Z) (b : Booking) : bool :=
  (* New booking starts during existing booking *)
  ((b_start_time b <=? start_time) && (start_time <? b_end_time b))
  (* New booking ends during existing booking *)
  || ((b_start_time b <? end_time) && (end_time <=? b_end_time b))
  (* New booking encompasses existing booking *)
  || ((start_time <=? b_start_time b) && (b_end_time b <=? end_time)).

(** The whole filter of the query, on one row. *)
Definition conflict_row (service_id : string) (start_time end_time : Z)
    (exclude_booking_id : option string) (b : Booking) : bool :=
  String.eqb (b_service_id b) service_id
  && status_active (b_status b)
  && conflict_condition start_time end_time b
  && match exclude_booking_id with
     | Some x => if String.eqb x "" then true else negb (String.eqb (b_id b) x)
     | None => true
     end.

(** [BookingCRUD._has_time_conflict].  [start_time] and [end_time] are
    what the caller passes, [None] included: the filter then compares a
    column with [None] by [<=] or [<], which SQLAlchemy refuses while the
    filter is built, before any row is read. *)
Definition _has_time_conflict (s : Store) (service_id : string)
    (start_time end_time : option Z) (exclude_booking_id : option string)
  : result bool :=
  match start_time, end_time with
  | Some st, Some en =>
    Ok (match find (conflict_row service_id st en exclude_booking_id) (bookings s) with
        | Some _ => true
        | None => false
        end)
  | _, _ => Raise ArgumentError
  end.

Definition add_booking (b : Booking) (s : Store) : Store :=
  {| users := users s; services := services s;
     bookings := bookings s ++ [b]; token_blacklist := token_blacklist s |}.

(** [BookingCRUD.create_booking].  [new_id] is the [uuid4()] default of the
    id column and [now] the clock read by the [created_at] default. *)
Definition create_booking (now : Z) (new_id : string) (booking : BookingCreate)
    (user_id : string) : M Booking :=
  s <- get_store ;;
  match find (fun sv => String.eqb (s_id sv) (bc_service_id booking) && s_is_active sv)
             (services s) with
  | None => raise exn_service_not_found
  | Some _ =>
    conflict <- lift (_has_time_conflict s (bc_service_id booking)
                        (Some (ts (bc_start_time booking)))
                        (Some (ts (bc_end_time booking))) None) ;;
    if conflict then raise exn_conflict
    else
      try_except
        (let db_booking :=
           {| b_id := new_id; b_user_id := user_id;
              b_service_id := bc_service_id booking; b_status := pending;
              b_start_time := ts (bc_start_time booking);
              b_end_time := ts (bc_end_time booking); b_created_at := now |} in
         commit (add_booking db_booking s) ;;;
         refresh ;;;
         ret db_booking)
        (fun _ => rollback ;;;
                  raise (HTTPException 500 "Error occurred while creating booking"))
  end.

(** [setattr(db_booking, key, value)] on the three columns a patch names. *)
Definition setattr (b : Booking) (k : key) (v : value) : Booking :=
  match k, v with
  | k_start_time, VTime d =>
    {| b_id := b_id b; b_user_id := b_user_id b; b_service_id := b_service_id b;
       b_status := b_status b; b_start_time := ts d; b_end_time := b_end_time b;
       b_created_at := b_created_at b |}
  | k_end_time, VTime d =>
    {| b_id := b_id b; b_user_id := b_user_id b; b_service_id := b_service_id b;
       b_status := b_status b; b_start_time := b_start_time b; b_end_time := ts d;
       b_created_at := b_created_at b |}
  | k_status, VStatus st =>
    {| b_id := b_id b; b_user_id := b_user_id b; b_service_id := b_service_id b;
       b_status := st; b_start_time := b_start_time b; b_end_time := b_end_time b;
       b_created_at := b_created_at b |}
  | _, _ => b
  end.

(** [for key, value in update_data.items(): if value is not None: setattr(..)] *)
Definition apply_update_data (d : list (key * option value)) (b : Booking) : Booking :=
  fold_left (fun acc kv => match snd kv with
                           | Some v => setattr acc (fst kv) v
                           | None => acc
                           end) d b.

(** The row held by the session, written back under its primary key. *)
Fixpoint write_booking (b' : Booking) (l : list Booking) : list Booking :=
  match l with
  | [] => []
  | x :: r => if String.eqb (b_id x) (b_id b') then b' :: r
              else x :: write_booking b' r
  end.

Definition set_bookings (l : list Booking) (s : Store) : Store :=
  {| users := users s; services := services s;
     bookings := l; token_blacklist := token_blacklist s |}.

Definition time_of (v : option value) : option Z :=
  match v with Some (VTime d) => Some (ts d) | _ => None end.

Definition is_cancelled (v : option value) : bool :=
  match v with Some (VStatus cancelled) => true | _ => false end.

(** [BookingCRUD.update_booking] *)
Definition update_booking (booking_id : string) (booking_update : BookingUpdate)
    (user_id : option string) (is_admin : bool) : M Booking :=
  let user_id_str := match user_id with Some u => u | None => "None"%string end in
  s <- get_store ;;
  match find (fun b => String.eqb (b_id b) booking_id) (bookings s) with
  | None => raise exn_booking_not_found
  | Some db_booking =>
    (* Authorization check *)
    if negb is_admin && negb (String.eqb user_id_str "")
       && negb (String.eqb (b_user_id db_booking) user_id_str)
    then raise exn_not_authorized
    else
      let update_data := model_dump booking_update in
      let reschedule := dict_mem k_start_time update_data || dict_mem k_end_time update_data in
      (* Check if user is trying to reschedule *)
      if reschedule && negb is_admin && negb (status_active (b_status db_booking))
      then raise exn_reschedule
      (* Check if user is trying to cancel *)
      else if dict_mem k_status update_data
              && is_cancelled (dict_get k_status update_data None)
              && negb is_admin && negb (status_active (b_status db_booking))
      then raise exn_cancel
      else
        try_except
          ((if reschedule then
              let new_start :=
                time_of (dict_get k_start_time update_data
                           (Some (VTime (mkDatetime (b_start_time db_booking) false)))) in
              let new_end :=
                time_of (dict_get k_end_time update_data
                           (Some (VTime (mkDatetime (b_end_time db_booking) false)))) in
              conflict <- lift (_has_time_conflict s (b_service_id db_booking)
                                  new_start new_end (Some booking_id)) ;;
              if conflict then raise exn_conflict else ret tt
            else ret tt) ;;;
           let updated := apply_update_data update_data db_booking in
           commit (set_bookings (write_booking updated (bookings s)) s) ;;;
           refresh ;;;
           ret updated)
          (fun e => if is_http e then raise e
                    else rollback ;;;
                         raise (HTTPException 500 "Error occurred while updating booking"))
  end.

Definition exn_not_authorized_delete : exn :=
  HTTPException 403 "Not authorized to delete this booking".
Definition exn_started : exn :=
  HTTPException 400 "Cannot delete booking that has already started".

Fixpoint remove_booking (id : string) (l : list Booking) : list Booking :=
  match l with
  | [] => []
  | x :: r => if String.eqb (b_id x) id then r else x :: remove_booking id r
  end.

(** [BookingCRUD.delete_booking], at clock value [now]; the stored start
    time is read in UTC. *)
Definition delete_booking (now : Z) (booking_id : string) (user_id : option string)
    (is_admin : bool) : M Booking :=
  let user_id_str := match user_id with Some u => u | None => "None"%string end in
  s <- get_store ;;
  match find (fun b => String.eqb (b_id b) booking_id) (bookings s) with
  | None => raise exn_booking_not_found
  | Some db_booking =>
    if negb is_admin && negb (String.eqb user_id_str "")
       && negb (String.eqb (b_user_id db_booking) user_id_str)
    then raise exn_not_authorized_delete
    else if negb is_admin && (b_start_time db_booking <=? now)
    then raise exn_started
    else
      try_except
        (commit (set_bookings (remove_booking (b_id db_booking) (bookings s)) s) ;;;
         ret db_booking)
        (fun _ => rollback ;;;
                  raise (HTTPException 500 "Error occurred while deleting booking"))
  end.

(** POST /bookings (app/routes/booking_route.py): the body is validated
    into a [BookingCreate] before the route runs; a [ValueError] of a
    validator is answered 422, any other exception of a validator is not
    handled.  The route lets HTTP exceptions through and turns the others
    into a 500. *)
Definition post_bookings (now : Z) (new_id : string) (service_id : string)
    (start_time end_time : datetime) (current_user_id : string) : M Booking :=
  match BookingCreate_validate now service_id start_time end_time with
  | Raise (ValueError msg) => raise (HTTPException 422 msg)
  | Raise e => raise e
  | Ok booking =>
    try_except
      (create_booking now new_id booking current_user_id)
      (fun e => if is_http e then raise e
                else raise (HTTPException 500 "Error occurred while creating booking"))
  end.

(* ===================================================================== *)
(** ** Tokens (python-jose) *)
(* ===================================================================== *)

(** [jwt.encode(claims, key, algorithm)] *)
Definition jwt_encode (c : token_claims) (k : string) : token := Jwt c k.

(** [jwt.get_unverified_claims(token)] *)
Definition jwt_get_unverified_claims (t : token) : result token_claims :=
  match t with
  | Garbage _ => Raise JWTError
  | Jwt c _ => Ok c
  end.

(** [jwt.decode(token, key, algorithms)]: the signature, then [exp] when
    the claim is there (expired when [exp < now]). *)
Definition jwt_decode (now : Z) (t : token) (k : string) : result token_claims :=
  match t with
  | Garbage _ => Raise JWTError
  | Jwt c k' =>
    if String.eqb k' k then
      match c_exp c with
      | Some e => if e <? now then Raise JWTError else Ok c
      | None => Ok c
      end
    else Raise JWTError
  end.

(** The environment read at import time by app/security/auth.py. *)
Record Settings : Type := mkSettings {
  SECRET_KEY : string;
  ACCESS_TOKEN_EXPIRE_MINUTES : Z;
  REFRESH_TOKEN_EXPIRE_DAYS : Z
}.

(* ===================================================================== *)
(** ** app/utils/token_blacklist.py *)
(* ===================================================================== *)

Definition add_blacklisted (r : TokenBlacklist) (s : Store) : Store :=
  {| users := users s; services := services s;
     bookings := bookings s; token_blacklist := token_blacklist s ++ [r] |}.

Definition set_token_blacklist (l : list TokenBlacklist) (s : Store) : Store :=
  {| users := users s; services := services s;
     bookings := bookings s; token_blacklist := l |}.

(** [TokenBlacklistService.blacklist_token] *)
Definition blacklist_token (tok : token) (expires_at : Z) : M unit :=
  try_except
    (payload <- lift (jwt_get_unverified_claims tok) ;;
     match c_jti payload with
     | None => ret tt
     | Some jti =>
       if String.eqb jti "" then ret tt
       else
         s <- get_store ;;
         (* Check if token is already blacklisted *)
         match find (fun r => String.eqb (tb_jti r) jti) (token_blacklist s) with
         | Some _ => ret tt
         | None =>
           commit (add_blacklisted
                     {| tb_jti := jti; tb_token := tok; tb_expires_at := expires_at |} s)
         end
     end)
    (fun _ => rollback).

(** [TokenBlacklistService.is_token_blacklisted], at clock value [now]. *)
Definition is_token_blacklisted (now : Z) (s : Store) (jti : string) : bool :=
  match find (fun r => String.eqb (tb_jti r) jti && (now <? tb_expires_at r))
             (token_blacklist s) with
  | Some _ => true
  | None => false
  end.

(** [TokenBlacklistService.cleanup_expired_tokens], at clock value [now]. *)
Definition cleanup_expired_tokens (now : Z) : M Z :=
  try_except
    (s <- get_store ;;
     let expired := filter (fun r => tb_expires_at r <=? now) (token_blacklist s) in
     let kept := filter (fun r => negb (tb_expires_at r <=? now)) (token_blacklist s) in
     let expired_count := Z.of_nat (List.length expired) in
     commit (set_token_blacklist kept s) ;;;
     ret expired_count)
    (fun _ => rollback ;;; ret 0).

(* ===================================================================== *)
(** ** app/security/auth.py and app/utils/user_app_service.py *)
(* ===================================================================== *)

(** The first and the last second a [datetime] can hold:
    0001-01-01T00:00:00 and 9999-12-31T23:59:59, UTC. *)
Definition MIN_TIMESTAMP : Z := -62135596800.
Definition MAX_TIMESTAMP : Z := 253402300799.

(** [datetime.fromtimestamp(payload.get("exp"), tz=timezone.utc)]: a
    missing claim is a [TypeError], and a timestamp outside the years 1 to
    9999 is refused (the exception is a [ValueError] or an [OverflowError];
    the route catches both alike). *)
Definition exp_of (payload : token_claims) : result Z :=
  match c_exp payload with
  | Some e =>
    if (MIN_TIMESTAMP <=? e) && (e <=? MAX_TIMESTAMP) then Ok e
    else Raise (ValueError "year is out of range")
  | None => Raise TypeError
  end.

Definition exn_invalid_refresh : exn := HTTPException 401 "Invalid refresh token".
Definition exn_refresh_revoked : exn := HTTPException 401 "Refresh token has been revoked".
Definition exn_credentials : exn := HTTPException 401 "Could not validate credentials".
Definition exn_revoked : exn := HTTPException 401 "Token has been revoked".
Definition exn_inactive : exn := HTTPException 403 "User account is inactive".
Definition exn_logout : exn := HTTPException 500 "Error occurred during logout".
Definition exn_refresh : exn := HTTPException 500 "Error occurred while refreshing token".

Definition type_is (c : token_claims) (t : string) : bool :=
  match c_type c with Some t' => String.eqb t' t | None => false end.

Definition set_users (l : list User) (s : Store) : Store :=
  {| users := l; services := services s;
     bookings := bookings s; token_blacklist := token_blacklist s |}.

Definition with_status (st : string) (u : User) : User :=
  {| u_id := u_id u; u_email := u_email u; u_status := st;
     u_role := u_role u; u_is_active := u_is_active u |}.

(** The user row held by the session, written back under its primary key. *)
Fixpoint write_user (u' : User) (l : list User) : list User :=
  match l with
  | [] => []
  | x :: r => if String.eqb (u_id x) (u_id u') then u' :: r
              else x :: write_user u' r
  end.

(** A [str] argument is truthy when it is not empty. *)
Definition token_truthy (t : token) : bool :=
  match t with Garbage "" => false | _ => true end.

Section Auth.

Variable cfg : Settings.

(** [create_access_token(data={"sub": sub}, expires_delta)]; [jti] is the
    [uuid4()] drawn for the token. *)
Definition create_access_token (now : Z) (jti : string) (sub : string)
    (expires_delta : option Z) : token * Z :=
  let expire :=
    match expires_delta with
    | Some d => if d =? 0 then now + 60 * ACCESS_TOKEN_EXPIRE_MINUTES cfg else now + d
    | None => now + 60 * ACCESS_TOKEN_EXPIRE_MINUTES cfg
    end in
  (jwt_encode {| c_sub := Some sub; c_jti := Some jti; c_exp := Some expire;
                 c_iat := Some now; c_type := Some "access"%string |}
              (SECRET_KEY cfg),
   expire).

(** [create_refresh_token] *)
Definition create_refresh_token (now : Z) (jti : string) (sub : string)
    (expires_delta : option Z) : token * Z :=
  let expire :=
    match expires_delta with
    | Some d => if d =? 0 then now + 86400 * REFRESH_TOKEN_EXPIRE_DAYS cfg else now + d
    | None => now + 86400 * REFRESH_TOKEN_EXPIRE_DAYS cfg
    end in
  (jwt_encode {| c_sub := Some sub; c_jti := Some jti; c_exp := Some expire;
                 c_iat := Some now; c_type := Some "refresh"%string |}
              (SECRET_KEY cfg),
   expire).

(** The body shared by [verify_refresh_token] and [get_current_user]: the
    [try] block, its [except jwt.JWTError], then the user lookup; the two
    functions differ in the type tag and in the details of their 401s. *)
Definition verify_token (now : Z) (tok : token) (expected_type : string)
    (credentials_detail revoked_detail : string) : M User :=
  let credentials_exception := HTTPException 401 credentials_detail in
  let revoked_exception := HTTPException 401 revoked_detail in
  user_id <-
    try_except
      (payload <- lift (jwt_decode now tok (SECRET_KEY cfg)) ;;
       match c_sub payload, c_jti payload with
       | Some user_id, Some jti =>
         if negb (type_is payload expected_type) then raise credentials_exception
         else
           s <- get_store ;;
           if is_token_blacklisted now s jti then raise revoked_exception
           else ret user_id
       | _, _ => raise credentials_exception
       end)
      (fun e => match e with
                | JWTError => raise credentials_exception
                | _ => raise e
                end) ;;
  s <- get_store ;;
  match find (fun u => String.eqb (u_id u) user_id && u_is_active u) (users s) with
  | None => raise credentials_exception
  | Some user => ret user
  end.

(** [verify_refresh_token] *)
Definition verify_refresh_token (now : Z) (tok : token) : M User :=
  verify_token now tok "refresh" "Invalid refresh token" "Refresh token has been revoked".

(** [get_current_user] *)
Definition get_current_user (now : Z) (tok : token) : M User :=
  verify_token now tok "access" "Could not validate credentials" "Token has been revoked".

(** [UserService.logout_user] *)
Definition logout_user (user : User) (access_token : token) (access_expires_at : Z)
    (refresh_token : option token) (refresh_expires_at : option Z) : M string :=
  try_except
    (s <- get_store ;;
     (* Update user status to inactive (for logout state) *)
     commit (set_users (write_user (with_status "inactive" user) (users s)) s) ;;;
     refresh ;;;
     (* Add access token to blacklist *)
     blacklist_token access_token access_expires_at ;;;
     (* Add refresh token to blacklist if provided *)
     match refresh_token, refresh_expires_at with
     | Some rt, Some re =>
       if token_truthy rt then blacklist_token rt re else ret tt
     | _, _ => ret tt
     end ;;;
     ret "Successfully logged out"%string)
    (fun _ => rollback ;;; raise exn_logout).

(** [UserService.refresh_access_token]; [jti_access] and [jti_refresh] are
    the [uuid4()] values drawn for the new pair. *)
Definition refresh_access_token (now : Z) (jti_access jti_refresh : string)
    (refresh_token : token) : M (token * token) :=
  try_except
    ((* Verify refresh token and get user *)
     user <- verify_refresh_token now refresh_token ;;
     if negb (u_is_active user) then raise exn_inactive
     else
       (* Blacklist the old refresh token *)
       old_payload <- lift (jwt_get_unverified_claims refresh_token) ;;
       old_expires_at <- lift (exp_of old_payload) ;;
       blacklist_token refresh_token old_expires_at ;;;
       (* Create new access and refresh tokens *)
       let access_token := fst (create_access_token now jti_access (u_id user) (Some 1800)) in
       let new_refresh := fst (create_refresh_token now jti_refresh (u_id user) (Some 604800)) in
       ret (access_token, new_refresh))
    (fun e => if is_http e then raise e else raise exn_refresh).

End Auth.

(** Running a handler: its result and the committed store it leaves. *)
Definition result_of {A} (m : M A) (w : World) : result A := fst (m w).
Definition store_after {A} (m : M A) (w : World) : Store := store (snd (m w)).

(* ===================================================================== *)
(** ** Vocabulary of the properties, and the stores of the examples *)
(* ===================================================================== *)

Ltac unfold_m :=
  unfold result_of, store_after, bind, get_store, raise, ret, try_except,
    commit, refresh, rollback, lift in *.

(** Half-open overlap of [s,e) and [S,E). *)
Definition overlaps (s e S E : Z) : Prop := s < E /\ S < e.

(** The three cases as the conflict check writes them. *)
Definition three_conditions (s e S E : Z) : Prop :=
  (S <= s /\ s < E) \/ (S < e /\ e <= E) \/ (s <= S /\ E <= e).

(** A row of [bookings] that blocks the window [s,e) on service [sid]: a
    pending or confirmed booking of that service whose window overlaps. *)
Definition blocking (sid : string) (s e : Z) (b : Booking) : Prop :=
  b_service_id b = sid /\ (b_status b = pending \/ b_status b = confirmed)
  /\ overlaps s e (b_start_time b) (b_end_time b).

Definition service_available (st : Store) (sid : string) : Prop :=
  exists sv, find (fun sv => String.eqb (s_id sv) sid && s_is_active sv) (services st)
             = Some sv.

(** The scenario of the specification, in seconds of one day: A = [10:00,
    11:00) is stored pending on service S. *)
Definition scenario_world : World :=
  {| store := {| users := [];
                 services := [ {| s_id := "S"; s_is_active := true |} ];
                 bookings := [ {| b_id := "A"; b_user_id := "u1"; b_service_id := "S";
                                  b_status := pending; b_start_time := 36000;
                                  b_end_time := 39600; b_created_at := 0 |} ];
                 token_blacklist := [] |};
     faults := [] |}.

Definition request (sid : string) (s e : Z) : BookingCreate :=
  {| bc_service_id := sid; bc_start_time := mkDatetime s true;
     bc_end_time := mkDatetime e true |}.

(** What one patch field does to a column. *)
Definition patched {A B} (f : field A) (proj : A -> B) (old new : B) : Prop :=
  match f with
  | Value a => new = proj a
  | _ => new = old
  end.

Definition owner_patch_world : World :=
  {| store := {| users := []; services := [];
                 bookings := [ {| b_id := "A"; b_user_id := "u1"; b_service_id := "S";
                                  b_status := pending; b_start_time := 36000;
                                  b_end_time := 39600; b_created_at := 0 |} ];
                 token_blacklist := [] |};
     faults := [] |}.

(** The first [n] coming commits and re-reads go through. *)
Definition commits_ok (n : nat) (w : World) : Prop :=
  forallb negb (firstn n (faults w)) = true.

Definition ledger_row (jti : string) (l : list TokenBlacklist) : option TokenBlacklist :=
  find (fun r => String.eqb (tb_jti r) jti) l.

Definition ledger_world : World :=
  {| store := {| users := []; services := []; bookings := [];
                 token_blacklist :=
                   [ {| tb_jti := "old"; tb_token := Garbage "x"; tb_expires_at := 100 |};
                     {| tb_jti := "live"; tb_token := Garbage "y"; tb_expires_at := 900 |} ] |};
     faults := [] |}.

Definition active_user (s : Store) (user_id : string) : option User :=
  find (fun u => String.eqb (u_id u) user_id && u_is_active u) (users s).

Definition example_settings : Settings :=
  {| SECRET_KEY := "secret"; ACCESS_TOKEN_EXPIRE_MINUTES := 30;
     REFRESH_TOKEN_EXPIRE_DAYS := 7 |}.

Definition alice : User :=
  {| u_id := "u1"; u_email := "alice@example.com"; u_status := "active";
     u_role := "user"; u_is_active := true |}.

Definition session_world (l : list TokenBlacklist) (fs : list bool) : World :=
  {| store := {| users := [alice]; services := []; bookings := [];
                 token_blacklist := l |};
     faults := fs |}.

(** The refresh token issued at time 1000 for [alice] with jti "r1". *)
Definition alice_refresh : token :=
  fst (create_refresh_token example_settings 1000 "r1" "u1" (Some 604800)).

(** The token carries no usable jti: it does not decode, or the claim is
    absent or empty. *)
Definition no_jti (tok : token) : Prop :=
  match tok with
  | Garbage _ => True
  | Jwt c _ => c_jti c = None \/ c_jti c = Some ""%string
  end.

Definition next_commit_fails (w : World) : Prop :=
  exists fs, faults w = true :: fs.




Ltac crush_m :=
  repeat match goal with
         | |- context [match find ?f ?l with _ => _ end] => destruct (find f l); simpl
         | |- context [if ?c then _ else _] => destruct c; simpl
         | |- context [match faults ?x with _ => _ end] =>
             destruct (faults x) as [|[] ?]; simpl
         | |- context [match ?l with [] => _ | _ :: _ => _ end] =>
             is_var l; destruct l as [|[] ?]; simpl
         end.

(* ===================================================================== *)
(** ** Reads of app/services/booking_crud.py *)
(* ===================================================================== *)

(** [BookingCRUD.get_booking_by_id] *)
Definition get_booking_by_id (s : Store) (booking_id : string) : option Booking :=
  find (fun b => String.eqb (b_id b) booking_id) (bookings s).

(** [order_by(Booking.start_time.desc())]: rows are inserted one by one
    before the first row that does not start later. *)
Fixpoint insert_desc (b : Booking) (l : list Booking) : list Booking :=
  match l with
  | [] => [b]
  | x :: r => if b_start_time x <=? b_start_time b then b :: x :: r
              else x :: insert_desc b r
  end.

Fixpoint sort_desc (l : list Booking) : list Booking :=
  match l with
  | [] => []
  | x :: r => insert_desc x (sort_desc r)
  end.

(** An optional string argument is used when it is given and not empty. *)
Definition str_filter (arg : option string) (col : string) : bool :=
  match arg with
  | Some v => if String.eqb v "" then true else String.eqb col v
  | None => true
  end.

Definition status_eqb (a b : BookingStatus) : bool :=
  match a, b with
  | pending, pending | confirmed, confirmed
  | cancelled, cancelled | completed, completed => true
  | _, _ => false
  end.

(** The [filter] calls of [get_bookings], as one condition on a row. *)
Definition bookings_filter (user_id service_id : option string)
    (status : option BookingStatus) (from_date to_date : option Z) (b : Booking) : bool :=
  str_filter user_id (b_user_id b)
  && str_filter service_id (b_service_id b)
  && match status with Some st => status_eqb (b_status b) st | None => true end
  && match from_date with Some d => d <=? b_start_time b | None => true end
  && match to_date with Some d => b_start_time b <=? d | None => true end.

(** [BookingCRUD.get_bookings] *)
Definition get_bookings (s : Store) (skip limit : nat) (user_id service_id : option string)
    (status : option BookingStatus) (from_date to_date : option Z) : list Booking :=
  firstn limit
    (skipn skip
       (sort_desc
          (filter (bookings_filter user_id service_id status from_date to_date)
                  (bookings s)))).

(** [BookingCRUD.get_user_bookings] *)
Definition get_user_bookings (s : Store) (user_id : string) (skip limit : nat)
  : list Booking :=
  get_bookings s skip limit (Some user_id) None None None None.

(** [BookingCRUD.get_service_bookings] *)
Definition get_service_bookings (s : Store) (service_id : string) (skip limit : nat)
  : list Booking :=
  get_bookings s skip limit None (Some service_id) None None None.

(* ===================================================================== *)
(** ** The dependencies and the login of app/security/auth.py,
       app/utils/user_app_service.py and app/routes/user_route.py *)
(* ===================================================================== *)

Definition exn_logged_out : exn := HTTPException 403 "User is currently logged out".
Definition exn_admin_required : exn := HTTPException 403 "Admin access required".
Definition exn_invalid_credentials : exn := HTTPException 401 "Invalid credentials".
Definition exn_user_inactive : exn := HTTPException 403 "User account is inactive.".
Definition exn_user_not_found : exn :=
  HTTPException 404 "User not found:This user does not exist in the database".

Definition with_is_active (a : bool) (u : User) : User :=
  {| u_id := u_id u; u_email := u_email u; u_status := u_status u;
     u_role := u_role u; u_is_active := a |}.

(** [UserCRUD.delete_user]: the soft delete.  The function has no handler
    of its own, so a failing commit leaves it as the database error. *)
Definition delete_user (user_id : string) : M User :=
  s <- get_store ;;
  match find (fun u => String.eqb (u_id u) user_id) (users s) with
  | None => raise exn_user_not_found
  | Some db_user =>
    let deleted := with_is_active false db_user in
    commit (set_users (write_user deleted (users s)) s) ;;;
    refresh ;;;
    ret deleted
  end.

Section Login.

Variable cfg : Settings.

(** [verify_password(password, user.password_hash)].  The password hash is
    a column of the user row that the modelled [User] does not carry; the
    check is taken as a function of the row and the password. *)
Variable password_matches : User -> string -> bool.

(** [get_current_active_user] *)
Definition get_current_active_user (now : Z) (tok : token) : M User :=
  current_user <- get_current_user cfg now tok ;;
  if negb (String.eqb (u_status current_user) "active") then raise exn_logged_out
  else ret current_user.

(** [get_current_admin_user] *)
Definition get_current_admin_user (now : Z) (tok : token) : M User :=
  current_user <- get_current_active_user now tok ;;
  if negb (String.eqb (u_role current_user) "admin") then raise exn_admin_required
  else ret current_user.

(** [authenticate_user] *)
Definition authenticate_user (email password : string) : M User :=
  s <- get_store ;;
  match find (fun u => String.eqb (u_email u) email && u_is_active u) (users s) with
  | None => raise exn_invalid_credentials
  | Some user =>
    if negb (password_matches user password) then raise exn_invalid_credentials
    else if negb (u_is_active user) then raise exn_user_inactive
    else ret user
  end.

(** [UserService.login_user]; the result is the access token, the refresh
    token and the user of the [LoginResponse]. *)
Definition login_user (now : Z) (jti_access jti_refresh : string)
    (email password : string) : M (token * token * User) :=
  user <- authenticate_user email password ;;
  user <-
    (* Reactivate user status on successful login *)
    (if negb (String.eqb (u_status user) "active") then
       s <- get_store ;;
       let reactivated := with_status "active" user in
       commit (set_users (write_user reactivated (users s)) s) ;;;
       refresh ;;;
       ret reactivated
     else ret user) ;;
  let access_token := fst (create_access_token cfg now jti_access (u_id user) (Some 1800)) in
  let refresh_token := fst (create_refresh_token cfg now jti_refresh (u_id user) (Some 604800)) in
  ret (access_token, refresh_token, user).

(** POST /auth/logout (app/routes/user_route.py): [current_user] is the
    dependency [get_current_user] on the bearer token. *)
Definition post_auth_logout (now : Z) (tok : token) (refresh_token : token) : M string :=
  current_user <- get_current_user cfg now tok ;;
  try_except
    (access_payload <- lift (jwt_get_unverified_claims tok) ;;
     access_expires_at <- lift (exp_of access_payload) ;;
     refresh_payload <- lift (jwt_get_unverified_claims refresh_token) ;;
     refresh_expires_at <- lift (exp_of refresh_payload) ;;
     logout_user current_user tok access_expires_at
       (Some refresh_token) (Some refresh_expires_at))
    (fun e => if is_http e then raise e else raise exn_logout).

End Login.

(** PATCH /bookings/{booking_id} (app/routes/booking_route.py), after the
    dependency [get_current_active_user] gave [current_user]: the body is
    validated into a [BookingUpdate], then the route runs. *)
Definition patch_booking (current_user : User) (booking_id : string)
    (body : BookingUpdate) : M Booking :=
  match update_end_time_must_be_after_start_time body with
  | Raise (ValueError msg) => raise (HTTPException 422 msg)
  | Raise e => raise e
  | Ok booking_update =>
    try_except
      (let is_admin := String.eqb (u_role current_user) "admin" in
       let user_id := if is_admin then None else Some (u_id current_user) in
       update_booking booking_id booking_update user_id is_admin)
      (fun e => if is_http e then raise e
                else raise (HTTPException 500 "Error occurred while updating booking"))
  end.

(* ===================================================================== *)
(** ** Vocabulary of the further properties *)
(* ===================================================================== *)

(** Two rows that may stand together: of different services, or one of
    them neither pending nor confirmed, or with disjoint windows. *)
Definition compatible (a b : Booking) : Prop :=
  b_service_id a = b_service_id b ->
  status_active (b_status a) = true -> status_active (b_status b) = true ->
  ~ overlaps (b_start_time a) (b_end_time a) (b_start_time b) (b_end_time b).

(** No two pending or confirmed bookings of one service overlap. *)
Definition no_double_booking (l : list Booking) : Prop :=
  ForallOrdPairs compatible l.

(** The patch moves the booking: it names a start or an end, none null. *)
Definition reschedules (u : BookingUpdate) : Prop :=
  bu_start_time u <> Null /\ bu_end_time u <> Null
  /\ (bu_start_time u <> Unset \/ bu_end_time u <> Unset).

(** The window the booking [b] has after the patch [u]. *)
Definition patched_start (u : BookingUpdate) (b : Booking) : Z :=
  match bu_start_time u with Value d => ts d | _ => b_start_time b end.
Definition patched_end (u : BookingUpdate) (b : Booking) : Z :=
  match bu_end_time u with Value d => ts d | _ => b_end_time b end.

(** A row of [bookings] the conflict query selects for the window [s,e) on
    service [sid], the exclusion by id apart: a pending or confirmed
    booking of that service that meets one of the three conditions. *)
Definition conflicting (sid : string) (s e : Z) (b : Booking) : Prop :=
  b_service_id b = sid /\ (b_status b = pending \/ b_status b = confirmed)
  /\ three_conditions s e (b_start_time b) (b_end_time b).

(** A = [10:00, 11:00) and B = [11:00, 12:00), both pending on service S. *)
Definition reschedule_world : World :=
  {| store := {| users := []; services := [];
                 bookings := [ {| b_id := "A"; b_user_id := "u1"; b_service_id := "S";
                                  b_status := pending; b_start_time := 36000;
                                  b_end_time := 39600; b_created_at := 0 |};
                               {| b_id := "B"; b_user_id := "u2"; b_service_id := "S";
                                  b_status := pending; b_start_time := 39600;
                                  b_end_time := 43200; b_created_at := 0 |} ];
                 token_blacklist := [] |};
     faults := [] |}.

(** The caller may touch the booking [b]: an admin, or its owner. *)
Definition may_touch (user_id : option string) (is_admin : bool) (b : Booking) : Prop :=
  is_admin = true \/ user_id = Some (b_user_id b).

Definition desc (a b : Booking) : Prop := b_start_time b <= b_start_time a.

Definition bob : User :=
  {| u_id := "u2"; u_email := "bob@example.com"; u_status := "active";
     u_role := "user"; u_is_active := true |}.

Definition two_users_world : World :=
  {| store := {| users := [alice; bob]; services := []; bookings := [];
                 token_blacklist := [] |};
     faults := [] |}.

(** The id the CRUD functions compare the owner with: [str(user_id)]. *)
Definition caller_id (user_id : option string) : string :=
  match user_id with Some u => u | None => "None"%string end.

(* ===================================================================== *)
(** * Properties *)
(* ===================================================================== *)

(** ** The conflict check *)

Lemma three_conditions_overlaps s e S E :
  s < e -> S < E -> (three_conditions s e S E <-> overlaps s e S E).
Proof. unfold three_conditions, overlaps. lia. Qed.

(** Every overlap is seen by the three conditions, whatever the windows. *)
Lemma overlaps_three_conditions s e S E :
  overlaps s e S E -> three_conditions s e S E.
Proof. unfold three_conditions, overlaps. lia. Qed.

Lemma status_active_iff st :
  status_active st = true <-> st = pending \/ st = confirmed.
Proof. destruct st; simpl; split; intros H; try tauto; try discriminate;
  destruct H; discriminate. Qed.

Lemma conflict_condition_three s e b :
  conflict_condition s e b = true
  <-> three_conditions s e (b_start_time b) (b_end_time b).
Proof.
  unfold conflict_condition, three_conditions.
  rewrite !orb_true_iff, !andb_true_iff, !Z.leb_le, !Z.ltb_lt. tauto.
Qed.

(** With both times given, the conflict query runs and answers. *)
Lemma has_time_conflict_total st sid s e x :
  exists c, _has_time_conflict st sid (Some s) (Some e) x = Ok c.
Proof. unfold _has_time_conflict. eexists. reflexivity. Qed.

Lemma has_time_conflict_true st sid s e x :
  _has_time_conflict st sid (Some s) (Some e) x = Ok true
  <-> exists b, In b (bookings st) /\ conflict_row sid s e x b = true.
Proof.
  unfold _has_time_conflict.
  destruct (find _ _) as [b|] eqn:F; split; intros H; try discriminate; auto.
  - apply find_some in F. eauto.
  - destruct H as [b [Hin Hb]]. apply (find_none _ _ F) in Hin. congruence.
Qed.

Lemma conflict_row_blocking sid s e b :
  s < e -> b_start_time b < b_end_time b ->
  (conflict_row sid s e None b = true <-> blocking sid s e b).
Proof.
  intros Hse HSE. unfold conflict_row, blocking.
  rewrite andb_true_r, !andb_true_iff, String.eqb_eq, conflict_condition_three,
    status_active_iff.
  rewrite (three_conditions_overlaps Hse HSE). tauto.
Qed.


(** C1.  For windows [s,e) and [S,E) with s < e and S < E the three
    conditions of the conflict check hold exactly when the windows overlap
    (s < E and S < e).  Hence, on an available service whose stored windows
    are well formed, create_booking answers 409 Conflict exactly when a
    booking of the same service whose status is pending or confirmed
    overlaps the request; and when none does (the commit and the re-read
    going through) it returns and appends to the table the row made of the
    new id, the caller, the requested service and window, the status
    pending and the clock, the other tables untouched.  A window that only
    touches a stored one is accepted. *)
Theorem C1_conflict_iff_overlap :
  forall (w : World) (now : Z) (new_id user_id : string) (booking : BookingCreate),
    let s := ts (bc_start_time booking) in
    let e := ts (bc_end_time booking) in
    let sid := bc_service_id booking in
    s < e ->
    (forall b, In b (bookings (store w)) -> b_start_time b < b_end_time b) ->
    service_available (store w) sid ->
    (forall b, In b (bookings (store w)) ->
       (conflict_condition s e b = true
        <-> overlaps s e (b_start_time b) (b_end_time b)))
    /\ (result_of (create_booking now new_id booking user_id) w = Raise exn_conflict
        <-> exists b, In b (bookings (store w)) /\ blocking sid s e b)
    /\ ((forall b, In b (bookings (store w)) -> ~ blocking sid s e b) ->
        commits_ok 2 w ->
        let b' := {| b_id := new_id; b_user_id := user_id; b_service_id := sid;
                     b_status := pending; b_start_time := s; b_end_time := e;
                     b_created_at := now |} in
        result_of (create_booking now new_id booking user_id) w = Ok b'
        /\ store_after (create_booking now new_id booking user_id) w
           = add_booking b' (store w)).
Proof.
  intros w now new_id user_id booking s e sid Hse Hwf [sv Hsv].
  assert (Hc : _has_time_conflict (store w) sid (Some s) (Some e) None = Ok true
               <-> exists b, In b (bookings (store w)) /\ blocking sid s e b).
  { rewrite has_time_conflict_true. split; intros [b [Hin Hb]]; exists b; split; auto.
    - apply conflict_row_blocking in Hb; auto.
    - apply conflict_row_blocking; auto. }
  destruct (has_time_conflict_total (store w) sid s e None) as [c Hq].
  split; [|split].
  - intros b Hin. rewrite conflict_condition_three.
    apply three_conditions_overlaps; auto.
  - unfold create_booking. unfold_m. fold sid s e. rewrite Hsv, Hq.
    rewrite Hq in Hc. destruct c.
    + simpl. split; intros _; [apply Hc|]; reflexivity.
    + split.
      * destruct (faults w) as [|[] [|[] ?]]; simpl; discriminate.
      * intros H. apply Hc in H. discriminate.
  - intros Hno Hok. cbv zeta.
    unfold create_booking. unfold_m. fold sid s e. rewrite Hsv, Hq.
    rewrite Hq in Hc. destruct c.
    + destruct (proj1 Hc eq_refl) as [b [Hin Hb]]. exfalso. exact (Hno b Hin Hb).
    + unfold commits_ok in Hok.
      destruct (faults w) as [|[] [|[] ?]]; simpl in Hok; try discriminate; simpl;
        split; reflexivity.
Qed.

Example scenario_B_rejected :
  result_of (create_booking 0 "B" (request "S" 37800 41400) "u2") scenario_world
  = Raise exn_conflict.
Proof. reflexivity. Qed.

Example scenario_C_accepted :
  result_of (create_booking 0 "C" (request "S" 39600 43200) "u2") scenario_world
  = Ok {| b_id := "C"; b_user_id := "u2"; b_service_id := "S"; b_status := pending;
          b_start_time := 39600; b_end_time := 43200; b_created_at := 0 |}.
Proof. reflexivity. Qed.

Lemma C1_conflict_iff_overlap_witness :
  result_of (create_booking 0 "C" (request "S" 39600 43200) "u2") scenario_world
  = Ok {| b_id := "C"; b_user_id := "u2"; b_service_id := "S"; b_status := pending;
          b_start_time := 39600; b_end_time := 43200; b_created_at := 0 |}
  /\ (result_of (create_booking 0 "B" (request "S" 37800 41400) "u2") scenario_world
      = Raise exn_conflict).
Proof.
  split.
  - destruct (@C1_conflict_iff_overlap scenario_world 0 "C" "u2" (request "S" 39600 43200))
      as [_ [_ H]].
    + simpl. lia.
    + simpl. intros b [<-|[]]. simpl. lia.
    + eexists. reflexivity.
    + destruct H as [H1 _].
      * simpl. intros b [<-|[]]. unfold blocking, overlaps. simpl. lia.
      * reflexivity.
      * exact H1.
  - destruct (@C1_conflict_iff_overlap scenario_world 0 "B" "u2" (request "S" 37800 41400))
      as [_ [H _]].
    + simpl. lia.
    + simpl. intros b [<-|[]]. simpl. lia.
    + eexists. reflexivity.
    + apply H.
      exists {| b_id := "A"; b_user_id := "u1"; b_service_id := "S";
                b_status := pending; b_start_time := 36000;
                b_end_time := 39600; b_created_at := 0 |}.
      split; [left; reflexivity|].
      unfold blocking, overlaps. simpl. repeat split; auto; lia.
Defined.

(** ** update_booking *)

Lemma apply_update_data_spec u b :
  let b' := apply_update_data (model_dump u) b in
  b_id b' = b_id b /\ b_user_id b' = b_user_id b
  /\ b_service_id b' = b_service_id b /\ b_created_at b' = b_created_at b
  /\ patched (bu_start_time u) ts (b_start_time b) (b_start_time b')
  /\ patched (bu_end_time u) ts (b_end_time b) (b_end_time b')
  /\ patched (bu_status u) (fun x => x) (b_status b) (b_status b').
Proof.
  destruct u as [[| |st] [| |en] [| |sta]]; cbv; repeat split.
Qed.

Lemma update_booking_ok w id u uid adm b' :
  result_of (update_booking id u uid adm) w = Ok b' ->
  exists b,
    find (fun x => String.eqb (b_id x) id) (bookings (store w)) = Some b
    /\ b' = apply_update_data (model_dump u) b
    /\ store_after (update_booking id u uid adm) w
       = set_bookings (write_booking b' (bookings (store w))) (store w).
Proof.
  unfold update_booking, _has_time_conflict. unfold_m.
  destruct (find _ (bookings (store w))) as [b|] eqn:F; simpl; [|discriminate].
  destruct u as [[| |st] [| |en] [| |sta]]; simpl;
    crush_m; intros H; try discriminate; injection H as Hb; subst b'; exists b; auto.
Qed.

(** A patch that names start_time or end_time as null never succeeds: the
    conflict query cannot be built, and whatever error the call ends with,
    the store is as before. *)
Lemma update_booking_null_time w id u uid adm :
  bu_start_time u = Null \/ bu_end_time u = Null ->
  is_ok (result_of (update_booking id u uid adm) w) = false
  /\ store_after (update_booking id u uid adm) w = store w.
Proof.
  intros Hnull. unfold update_booking, _has_time_conflict. unfold_m.
  destruct (find _ (bookings (store w))) as [b|] eqn:F; simpl; [|auto].
  destruct u as [[| |st] [| |en] [| |sta]]; simpl in *;
    try (exfalso; destruct Hnull; discriminate);
    crush_m; auto.
Qed.

(** C10.  A successful update_booking returns the stored booking with id,
    user_id, service_id and created_at as they were; start_time, end_time
    and status take the patch value when the patch carries one, and keep
    their previous value when the field is absent or null.  The other
    tables are untouched and the returned row is the one written back.  A
    null status is skipped in this way; a patch that names start_time or
    end_time as null is never successful: it ends with an error and the
    store, hence every field of the booking, is as before. *)
Theorem C10_update_frame :
  forall (w : World) (booking_id : string) (u : BookingUpdate)
         (user_id : option string) (is_admin : bool) (b' : Booking),
    result_of (update_booking booking_id u user_id is_admin) w = Ok b' ->
    (exists b,
      find (fun x => String.eqb (b_id x) booking_id) (bookings (store w)) = Some b
      /\ b_id b' = b_id b /\ b_user_id b' = b_user_id b
      /\ b_service_id b' = b_service_id b /\ b_created_at b' = b_created_at b
      /\ patched (bu_start_time u) ts (b_start_time b) (b_start_time b')
      /\ patched (bu_end_time u) ts (b_end_time b) (b_end_time b')
      /\ patched (bu_status u) (fun x => x) (b_status b) (b_status b')
      /\ let st' := store_after (update_booking booking_id u user_id is_admin) w in
         users st' = users (store w) /\ services st' = services (store w)
         /\ token_blacklist st' = token_blacklist (store w)
         /\ bookings st' = write_booking b' (bookings (store w)))
    /\ bu_start_time u <> Null /\ bu_end_time u <> Null
    /\ (forall (w0 : World) (u0 : BookingUpdate),
          bu_start_time u0 = Null \/ bu_end_time u0 = Null ->
          is_ok (result_of (update_booking booking_id u0 user_id is_admin) w0) = false
          /\ store_after (update_booking booking_id u0 user_id is_admin) w0 = store w0).
Proof.
  intros w booking_id u user_id is_admin b' H.
  assert (Hnn : bu_start_time u <> Null /\ bu_end_time u <> Null).
  { split; intros Hn;
      destruct (@update_booking_null_time w booking_id u user_id is_admin) as [E _];
      auto; rewrite H in E; discriminate. }
  split; [|split; [tauto|split; [tauto|]]].
  - destruct (update_booking_ok _ _ _ _ _ H) as [b [F [E St]]].
    exists b. split; [exact F|].
    pose proof (apply_update_data_spec u b) as S. cbv zeta in S. rewrite <- E in S.
    destruct S as (S1 & S2 & S3 & S4 & S5 & S6 & S7).
    repeat (split; [assumption|]).
    cbv zeta. rewrite St. simpl. auto.
  - intros w0 u0 Hn. apply update_booking_null_time. exact Hn.
Qed.

Lemma C10_update_frame_witness :
  exists b,
    find (fun x => String.eqb (b_id x) "A") (bookings (store owner_patch_world)) = Some b
    /\ b_status b = pending /\ b_created_at b = 0.
Proof.
  destruct (@C10_update_frame owner_patch_world "A"
              {| bu_start_time := Value (mkDatetime 37800 true); bu_end_time := Unset;
                 bu_status := Null |}
              (Some "u1"%string) false
              {| b_id := "A"; b_user_id := "u1"; b_service_id := "S";
                 b_status := pending; b_start_time := 37800;
                 b_end_time := 39600; b_created_at := 0 |})
    as [[b [F (_ & _ & _ & Hc & _ & _ & Hs & _)]] _].
  - reflexivity.
  - exists b. split; [exact F|]. simpl in Hs, Hc. split; congruence.
Defined.

(** C3 (the code at the failing input).  The owner of a pending booking,
    not an admin, patches status=completed: update_booking raises nothing
    and stores the booking as completed, exactly as it does for an admin. *)
Theorem C3_owner_sets_completed :
  let patch := {| bu_start_time := Unset; bu_end_time := Unset;
                  bu_status := Value completed |} in
  let done := {| b_id := "A"; b_user_id := "u1"; b_service_id := "S";
                 b_status := completed; b_start_time := 36000;
                 b_end_time := 39600; b_created_at := 0 |} in
  result_of (update_booking "A" patch (Some "u1"%string) false) owner_patch_world = Ok done
  /\ bookings (store_after (update_booking "A" patch (Some "u1"%string) false)
                 owner_patch_world) = [done]
  /\ result_of (update_booking "A" patch None true) owner_patch_world = Ok done.
Proof. repeat split. Qed.

(** ** The revocation ledger *)

Lemma blacklist_token_total tok e w : result_of (blacklist_token tok e) w = Ok tt.
Proof.
  unfold blacklist_token. unfold_m.
  destruct tok as [raw|c k]; simpl; [reflexivity|].
  destruct (c_jti c) as [j|]; simpl; [|reflexivity].
  destruct (String.eqb j ""); simpl; [reflexivity|].
  destruct (find _ _); simpl; [reflexivity|].
  destruct (faults w) as [|[] ?]; reflexivity.
Qed.

(** What [blacklist_token] leaves behind, case by case. *)
Lemma blacklist_token_store tok e w :
  store_after (blacklist_token tok e) w =
  match tok with
  | Garbage _ => store w
  | Jwt c _ =>
    match c_jti c with
    | None => store w
    | Some j =>
      if String.eqb j "" then store w
      else match ledger_row j (token_blacklist (store w)) with
           | Some _ => store w
           | None =>
             match faults w with
             | true :: _ => store w
             | _ => add_blacklisted
                      {| tb_jti := j; tb_token := tok; tb_expires_at := e |} (store w)
             end
           end
    end
  end.
Proof.
  unfold blacklist_token, ledger_row. unfold_m.
  destruct tok as [raw|c k]; simpl; [reflexivity|].
  destruct (c_jti c) as [j|]; simpl; [|reflexivity].
  destruct (String.eqb j ""); simpl; [reflexivity|].
  destruct (find _ _); simpl; [reflexivity|].
  destruct (faults w) as [|[] ?]; reflexivity.
Qed.

Lemma blacklist_token_users tok e w :
  users (store_after (blacklist_token tok e) w) = users (store w).
Proof.
  rewrite blacklist_token_store.
  destruct tok as [raw|c k]; [reflexivity|].
  destruct (c_jti c) as [j|]; [|reflexivity].
  destruct (String.eqb j ""); [reflexivity|].
  destruct (ledger_row j (token_blacklist (store w))); [reflexivity|].
  destruct (faults w) as [|[] ?]; reflexivity.
Qed.

(** The faults left after [blacklist_token]: one is used when a commit is
    attempted. *)
Lemma blacklist_token_faults tok e w :
  faults (snd (blacklist_token tok e w)) = faults w
  \/ faults (snd (blacklist_token tok e w)) = tl (faults w).
Proof.
  unfold blacklist_token. unfold_m.
  destruct tok as [raw|c k]; simpl; [auto|].
  destruct (c_jti c) as [j|]; simpl; [|auto].
  destruct (String.eqb j ""); simpl; [auto|].
  destruct (find _ _); simpl; [auto|].
  destruct (faults w) as [|[] ?]; simpl; auto.
Qed.

Lemma blacklist_token_run tok e w :
  exists w', blacklist_token tok e w = (Ok tt, w')
             /\ store w' = store_after (blacklist_token tok e) w
             /\ (faults w' = faults w \/ faults w' = tl (faults w)).
Proof.
  pose proof (blacklist_token_total tok e w) as T.
  pose proof (blacklist_token_faults tok e w) as F.
  unfold result_of, store_after in *.
  destruct (blacklist_token tok e w) as [r w']. simpl in *. subst r.
  exists w'. auto.
Qed.

(** A revocation of a fresh jti whose commit goes through. *)
Lemma blacklist_token_fresh c k j e w n :
  c_jti c = Some j -> j <> ""%string ->
  ledger_row j (token_blacklist (store w)) = None ->
  commits_ok (S n) w ->
  exists w', blacklist_token (Jwt c k) e w = (Ok tt, w')
             /\ store w' = add_blacklisted
                             {| tb_jti := j; tb_token := Jwt c k; tb_expires_at := e |}
                             (store w)
             /\ commits_ok n w'.
Proof.
  intros Hj Hne Hf Hok. apply String.eqb_neq in Hne.
  unfold blacklist_token. unfold_m. simpl. rewrite Hj, Hne.
  unfold ledger_row in Hf. rewrite Hf. unfold commits_ok in *.
  destruct (faults w) as [|[] fs]; simpl in Hok; try discriminate;
    eexists; (split; [reflexivity|split; [reflexivity|]]); simpl.
  - destruct n; reflexivity.
  - exact Hok.
Qed.

(** A commit and a re-read that go through. *)
Lemma commit_run st w n :
  commits_ok (S n) w ->
  commit st w = (Ok tt, mkWorld st (tl (faults w)))
  /\ commits_ok n (mkWorld st (tl (faults w))).
Proof.
  unfold commits_ok, commit. intros Hok.
  destruct (faults w) as [|[] fs]; simpl in *; try discriminate.
  - split; [reflexivity|]. destruct n; reflexivity.
  - split; [reflexivity|exact Hok].
Qed.

Lemma refresh_run w n :
  commits_ok (S n) w ->
  refresh w = (Ok tt, mkWorld (store w) (tl (faults w)))
  /\ commits_ok n (mkWorld (store w) (tl (faults w))).
Proof.
  unfold commits_ok, refresh. intros Hok.
  destruct (faults w) as [|[] fs]; simpl in *; try discriminate.
  - split; [reflexivity|]. destruct n; reflexivity.
  - split; [reflexivity|exact Hok].
Qed.

Lemma ledger_row_app_same j l r :
  tb_jti r = j -> exists r', ledger_row j (l ++ [r]) = Some r'.
Proof.
  intros <-. unfold ledger_row. induction l as [|x l IH]; simpl.
  - rewrite String.eqb_refl. eauto.
  - destruct (String.eqb (tb_jti x) (tb_jti r)); eauto.
Qed.

Lemma is_token_blacklisted_none now s j :
  ledger_row j (token_blacklist s) = None -> is_token_blacklisted now s j = false.
Proof.
  unfold is_token_blacklisted, ledger_row. intros H.
  destruct (find (fun r => String.eqb (tb_jti r) j && (now <? tb_expires_at r)) _)
    as [r|] eqn:F; [|reflexivity].
  apply find_some in F. destruct F as [Hin Hr].
  apply andb_true_iff in Hr. destruct Hr as [Hj _].
  pose proof (find_none _ _ H _ Hin) as Hn. simpl in Hn. congruence.
Qed.

Lemma is_token_blacklisted_true now s j :
  is_token_blacklisted now s j = true
  <-> exists r, In r (token_blacklist s) /\ tb_jti r = j /\ now < tb_expires_at r.
Proof.
  unfold is_token_blacklisted.
  destruct (find _ _) as [r|] eqn:F; split; intros H; try discriminate; auto.
  - apply find_some in F. destruct F as [Hin Hr].
    apply andb_true_iff in Hr. destruct Hr as [Hj He].
    apply String.eqb_eq in Hj. apply Z.ltb_lt in He. eauto.
  - destruct H as [r [Hin [Hj He]]]. pose proof (find_none _ _ F _ Hin) as Hn.
    simpl in Hn. apply String.eqb_eq in Hj. apply Z.ltb_lt in He.
    rewrite Hj, He in Hn. discriminate.
Qed.

(** C6.  Revoking a jti twice leaves exactly the ledger that revoking it
    once leaves, and the second revocation returns normally: once an entry
    with the jti exists, blacklist_token changes nothing and raises nothing,
    whatever the store does; and with every commit going through, two
    revocations of a token leave the store of one. *)
Theorem C6_revocation_idempotent :
  forall (s : Store) (tok : token) (e e' : Z),
    (forall (fs : list bool) (c : token_claims) (k : string) (j : string)
            (r : TokenBlacklist),
        tok = Jwt c k -> c_jti c = Some j ->
        ledger_row j (token_blacklist s) = Some r ->
        result_of (blacklist_token tok e') (mkWorld s fs) = Ok tt
        /\ store_after (blacklist_token tok e') (mkWorld s fs) = s)
    /\ (let once := snd (blacklist_token tok e (mkWorld s [])) in
        result_of (blacklist_token tok e') once = Ok tt
        /\ store_after (blacklist_token tok e') once = store once).
Proof.
  intros s tok e e'. split.
  - intros fs c k j r -> Hj Hr. split; [apply blacklist_token_total|].
    rewrite blacklist_token_store. simpl. rewrite Hj, Hr.
    destruct (String.eqb j ""); reflexivity.
  - cbv zeta. split; [apply blacklist_token_total|].
    rewrite blacklist_token_store.
    destruct tok as [raw|c k]; [reflexivity|].
    destruct (c_jti c) as [j|] eqn:Hj; [|reflexivity].
    destruct (String.eqb j "") eqn:Hne; [reflexivity|].
    fold (store_after (blacklist_token (Jwt c k) e) (mkWorld s [])).
    rewrite blacklist_token_store. simpl. rewrite Hj, Hne.
    destruct (ledger_row j (token_blacklist s)) as [r|] eqn:Hr.
    + rewrite Hr. reflexivity.
    + simpl.
      destruct (@ledger_row_app_same j (token_blacklist s)
                  {| tb_jti := j; tb_token := Jwt c k; tb_expires_at := e |} eq_refl)
        as [r' ->].
      reflexivity.
Qed.

(** ** Purging the ledger *)

Lemma cleanup_store now w :
  store_after (cleanup_expired_tokens now) w =
  match faults w with
  | true :: _ => store w
  | _ => set_token_blacklist
           (filter (fun r => negb (tb_expires_at r <=? now)) (token_blacklist (store w)))
           (store w)
  end.
Proof.
  unfold cleanup_expired_tokens. unfold_m. simpl.
  destruct (faults w) as [|[] ?]; reflexivity.
Qed.

Lemma is_token_blacklisted_filter now now' s j :
  now <= now' ->
  is_token_blacklisted now'
    (set_token_blacklist
       (filter (fun r => negb (tb_expires_at r <=? now)) (token_blacklist s)) s) j
  = is_token_blacklisted now' s j.
Proof.
  intros Hle. unfold is_token_blacklisted. simpl.
  induction (token_blacklist s) as [|r l IH]; simpl; [reflexivity|].
  destruct (Z.leb_spec (tb_expires_at r) now) as [Hx|Hx]; simpl.
  - replace (now' <? tb_expires_at r) with false by (symmetry; apply Z.ltb_ge; lia).
    rewrite andb_false_r. exact IH.
  - destruct (String.eqb (tb_jti r) j && (now' <? tb_expires_at r)); [reflexivity|exact IH].
Qed.

(** C7.  cleanup_expired_tokens at clock value now removes exactly the
    entries with expiry <= now (its result is their number) and keeps the
    others in place; it never changes a revocation check made at that time
    or later: for every jti, is_token_blacklisted answers the same on the
    purged ledger as on the original one. *)
Theorem C7_purge_preserves_checks :
  forall (w : World) (now now' : Z) (jti : string),
    now <= now' ->
    let purged := store_after (cleanup_expired_tokens now) w in
    is_token_blacklisted now' purged jti = is_token_blacklisted now' (store w) jti
    /\ (commits_ok 1 w ->
        token_blacklist purged
        = filter (fun r => now <? tb_expires_at r) (token_blacklist (store w))
        /\ (forall r, In r (token_blacklist purged)
                      <-> In r (token_blacklist (store w)) /\ ~ tb_expires_at r <= now)
        /\ result_of (cleanup_expired_tokens now) w
           = Ok (Z.of_nat (List.length
                   (filter (fun r => tb_expires_at r <=? now) (token_blacklist (store w))))))
    /\ users purged = users (store w) /\ services purged = services (store w)
    /\ bookings purged = bookings (store w).
Proof.
  intros w now now' jti Hle purged. subst purged. rewrite cleanup_store.
  split; [|split].
  - destruct (faults w) as [|[] ?]; try reflexivity;
      apply is_token_blacklisted_filter; assumption.
  - unfold commits_ok. intros Hok.
    assert (Hf : forall l : list TokenBlacklist,
               filter (fun r => negb (tb_expires_at r <=? now)) l
               = filter (fun r => now <? tb_expires_at r) l).
    { intros l. apply filter_ext. intros r.
      destruct (Z.leb_spec (tb_expires_at r) now), (Z.ltb_spec now (tb_expires_at r));
        simpl; try reflexivity; lia. }
    unfold cleanup_expired_tokens. unfold_m. simpl.
    destruct (faults w) as [|[] ?]; simpl in *; try discriminate;
      (split; [apply Hf|split; [|reflexivity]]);
      intros r; rewrite filter_In, negb_true_iff, Z.leb_gt; intuition lia.
  - destruct (faults w) as [|[] ?]; simpl; auto.
Qed.

Lemma C7_purge_preserves_checks_witness :
  is_token_blacklisted 600 (store_after (cleanup_expired_tokens 500) ledger_world) "live"
  = is_token_blacklisted 600 (store ledger_world) "live".
Proof.
  destruct (@C7_purge_preserves_checks ledger_world 500 600 "live") as [H _].
  - lia.
  - exact H.
Defined.

Lemma C6_revocation_idempotent_witness :
  store_after (blacklist_token (Jwt (mkClaims None (Some "live"%string) None None None) "k") 7)
    ledger_world = store ledger_world.
Proof.
  destruct (@C6_revocation_idempotent (store ledger_world)
              (Jwt (mkClaims None (Some "live"%string) None None None) "k") 7 7) as [H _].
  destruct (H [] (mkClaims None (Some "live"%string) None None None) "k"%string
              "live"%string
              {| tb_jti := "live"; tb_token := Garbage "y"; tb_expires_at := 900 |}
              eq_refl eq_refl eq_refl) as [_ H2].
  exact H2.
Defined.

(** ** Verification *)

(** Verification of a token signed with the configured key that carries
    sub, jti, exp and the expected type, at a time not after exp. *)
Lemma verify_token_signed cfg now c ty cd rd w sub j e :
  c_sub c = Some sub -> c_jti c = Some j -> c_exp c = Some e ->
  type_is c ty = true -> now <= e ->
  verify_token cfg now (Jwt c (SECRET_KEY cfg)) ty cd rd w =
  if is_token_blacklisted now (store w) j then (Raise (HTTPException 401 rd), w)
  else match active_user (store w) sub with
       | None => (Raise (HTTPException 401 cd), w)
       | Some u => (Ok u, w)
       end.
Proof.
  intros Hs Hj He Ht Hle. unfold verify_token, active_user. unfold_m. simpl.
  rewrite String.eqb_refl, He.
  replace (e <? now) with false by (symmetry; apply Z.ltb_ge; lia).
  rewrite Hs, Hj, Ht. simpl.
  destruct (is_token_blacklisted now (store w) j); simpl; [reflexivity|].
  destruct (find _ _); reflexivity.
Qed.

Lemma blacklist_token_keeps t x w r :
  In r (token_blacklist (store w)) ->
  In r (token_blacklist (store_after (blacklist_token t x) w)).
Proof.
  intros Hin. rewrite blacklist_token_store.
  destruct t as [|c k]; auto. destruct (c_jti c) as [j|]; auto.
  destruct (String.eqb j ""); auto. destruct (ledger_row _ _); auto.
  destruct (faults w) as [|[] ?]; auto; simpl; apply in_or_app; left; exact Hin.
Qed.

(** The ledger after a logout of [tok] whose status commit, re-read and
    first ledger write go through holds an entry for a fresh, non-empty jti
    of [tok], with the expiry the caller gave. *)
Lemma logout_user_ledger user c k e rt re w j :
  c_jti c = Some j -> j <> ""%string ->
  ledger_row j (token_blacklist (store w)) = None ->
  commits_ok 3 w ->
  In {| tb_jti := j; tb_token := Jwt c k; tb_expires_at := e |}
     (token_blacklist (store_after (logout_user user (Jwt c k) e rt re) w)).
Proof.
  intros Hj Hne Hfresh Hok.
  destruct (@commit_run (set_users (write_user (with_status "inactive" user)
                                      (users (store w))) (store w)) w 2 Hok)
    as [R1 Hok1].
  destruct (refresh_run Hok1) as [R2 Hok2].
  match type of Hok2 with
  | commits_ok _ ?w2 =>
      destruct (@blacklist_token_fresh c k j e w2 0 Hj Hne Hfresh Hok2)
        as (w3 & R3 & S3 & _)
  end.
  unfold store_after, logout_user, try_except, bind, get_store.
  rewrite R1, R2, R3.
  assert (Hin : In {| tb_jti := j; tb_token := Jwt c k; tb_expires_at := e |}
                   (token_blacklist (store w3))).
  { rewrite S3. simpl. apply in_or_app. right. left. reflexivity. }
  destruct rt as [t|]; [destruct re as [x|]|]; try destruct (token_truthy t);
    unfold ret; simpl; auto.
  destruct (blacklist_token_run t x w3) as (w4 & R4 & S4 & _). rewrite R4. simpl.
  rewrite S4. apply blacklist_token_keeps. exact Hin.
Qed.

(** C5.  The access token issued for user id [sub] with a fresh, non-empty
    jti verifies, at any time before its expiry and with [sub] resolving to
    an active user, to that user; and after a logout that revoked it (its
    status commit, the re-read and the ledger write going through) the same
    verification is refused with 401 "Token has been revoked". *)
Theorem C5_roundtrip_then_revoked :
  forall (cfg : Settings) (w : World) (now now' : Z) (jti sub : string)
         (expires_delta : option Z) (user : User),
    let issued := create_access_token cfg now jti sub expires_delta in
    now' < snd issued ->
    active_user (store w) sub = Some user ->
    jti <> ""%string ->
    ledger_row jti (token_blacklist (store w)) = None ->
    result_of (get_current_user cfg now' (fst issued)) w = Ok user
    /\ u_id user = sub
    /\ forall (refresh_token : option token) (refresh_expires_at : option Z),
         commits_ok 3 w ->
         result_of (get_current_user cfg now' (fst issued))
           (snd (logout_user user (fst issued) (snd issued)
                   refresh_token refresh_expires_at w))
         = Raise exn_revoked.
Proof.
  intros cfg w now now' jti sub delta user issued Hlt Hu Hne Hfresh.
  subst issued. unfold create_access_token in *. cbn [fst snd] in *.
  unfold jwt_encode.
  set (e := match delta with
            | Some d => if d =? 0 then now + 60 * ACCESS_TOKEN_EXPIRE_MINUTES cfg else now + d
            | None => now + 60 * ACCESS_TOKEN_EXPIRE_MINUTES cfg
            end) in *.
  set (c := {| c_sub := Some sub; c_jti := Some jti; c_exp := Some e;
               c_iat := Some now; c_type := Some "access"%string |}).
  assert (V : forall w0, get_current_user cfg now' (Jwt c (SECRET_KEY cfg)) w0 =
              if is_token_blacklisted now' (store w0) jti
              then (Raise exn_revoked, w0)
              else match active_user (store w0) sub with
                   | None => (Raise exn_credentials, w0)
                   | Some u => (Ok u, w0)
                   end).
  { intros w0. unfold get_current_user.
    apply (@verify_token_signed cfg now' c "access" _ _ w0 sub jti e);
      try reflexivity. lia. }
  split; [|split].
  - unfold result_of. rewrite V, (is_token_blacklisted_none _ _ _ Hfresh), Hu. reflexivity.
  - unfold active_user in Hu. apply find_some in Hu. destruct Hu as [_ Hu].
    apply andb_true_iff in Hu. destruct Hu as [Hu _]. apply String.eqb_eq in Hu. exact Hu.
  - intros rt re Hok. unfold result_of. rewrite V.
    assert (B : is_token_blacklisted now'
                  (store (snd (logout_user user (Jwt c (SECRET_KEY cfg)) e rt re w))) jti
                = true).
    { apply is_token_blacklisted_true.
      exists {| tb_jti := jti; tb_token := Jwt c (SECRET_KEY cfg); tb_expires_at := e |}.
      split; [|split; [reflexivity|exact Hlt]].
      apply (@logout_user_ledger user c (SECRET_KEY cfg) e rt re w jti); auto. }
    rewrite B. reflexivity.
Qed.

Lemma C5_roundtrip_then_revoked_witness :
  result_of (get_current_user example_settings 1500
               (fst (create_access_token example_settings 1000 "j1" "u1" (Some 1800))))
    (session_world [] []) = Ok alice.
Proof.
  destruct (@C5_roundtrip_then_revoked example_settings (session_world [] []) 1000 1500
              "j1" "u1" (Some 1800) alice) as [H _].
  - simpl. lia.
  - reflexivity.
  - discriminate.
  - reflexivity.
  - exact H.
Defined.

(** ** Rotation *)

(** Verification only reads. *)
Lemma verify_token_world cfg now t ty cd rd w :
  snd (verify_token cfg now t ty cd rd w) = w.
Proof.
  unfold verify_token. unfold_m.
  destruct t as [raw|c k]; simpl; [reflexivity|].
  destruct (String.eqb k (SECRET_KEY cfg)); simpl; [|reflexivity].
  destruct (c_exp c) as [e|]; [destruct (e <? now)|]; simpl;
    try reflexivity;
    destruct (c_sub c), (c_jti c); simpl; try reflexivity;
    destruct (type_is c ty); simpl; try reflexivity;
    destruct (is_token_blacklisted now (store w) s0); simpl; try reflexivity;
    destruct (find _ _); reflexivity.
Qed.

(** What a successful verification tells about the token and the store. *)
Lemma verify_token_ok cfg now c k ty cd rd w user :
  result_of (verify_token cfg now (Jwt c k) ty cd rd) w = Ok user ->
  k = SECRET_KEY cfg
  /\ (forall e, c_exp c = Some e -> now <= e)
  /\ type_is c ty = true
  /\ exists sub j, c_sub c = Some sub /\ c_jti c = Some j
                   /\ is_token_blacklisted now (store w) j = false
                   /\ active_user (store w) sub = Some user.
Proof.
  unfold verify_token, active_user. unfold_m. simpl.
  destruct (String.eqb k (SECRET_KEY cfg)) eqn:Hk; simpl; [|discriminate].
  apply String.eqb_eq in Hk.
  assert (Hexp : forall r : result token_claims,
             (match c_exp c with
              | Some e => if e <? now then Raise JWTError else Ok c
              | None => Ok c
              end) = r ->
             r = Ok c \/ r = Raise JWTError).
  { intros r <-. destruct (c_exp c) as [e|]; [destruct (e <? now)|]; auto. }
  destruct (match c_exp c with
            | Some e => if e <? now then Raise JWTError else Ok c
            | None => Ok c
            end) as [p|x] eqn:D.
  - destruct (Hexp _ eq_refl) as [E|E]; inversion E; subst p. simpl.
    destruct (c_sub c) as [sub|] eqn:Hs; [|discriminate].
    destruct (c_jti c) as [j|] eqn:Hj; [|discriminate].
    destruct (type_is c ty) eqn:Ht; simpl; [|discriminate].
    destruct (is_token_blacklisted now (store w) j) eqn:Hb; simpl; [discriminate|].
    destruct (find _ (users (store w))) as [u|] eqn:Hu; simpl; [|discriminate].
    intros H. inversion H; subst u.
    split; [exact Hk|]. split.
    + intros e He. rewrite He in D.
      destruct (Z.ltb_spec e now); [discriminate|assumption].
    + split; [reflexivity|]. exists sub, j. auto.
  - destruct (Hexp _ eq_refl) as [E|E]; inversion E; subst x. simpl. discriminate.
Qed.

Lemma exp_of_in_range c e :
  c_exp c = Some e -> MIN_TIMESTAMP <= e <= MAX_TIMESTAMP -> exp_of c = Ok e.
Proof.
  intros He [H1 H2]. unfold exp_of. rewrite He.
  apply Z.leb_le in H1, H2. rewrite H1, H2. reflexivity.
Qed.

Lemma exp_of_ok c e :
  exp_of c = Ok e -> c_exp c = Some e /\ MIN_TIMESTAMP <= e <= MAX_TIMESTAMP.
Proof.
  unfold exp_of. destruct (c_exp c) as [x|]; [|discriminate].
  destruct (Z.leb_spec MIN_TIMESTAMP x) as [H1|H1],
           (Z.leb_spec x MAX_TIMESTAMP) as [H2|H2]; simpl; try discriminate.
  intros E. injection E as ->. auto.
Qed.

Lemma exp_of_out_of_range c e :
  c_exp c = Some e -> e < MIN_TIMESTAMP \/ MAX_TIMESTAMP < e ->
  exp_of c = Raise (ValueError "year is out of range").
Proof.
  intros He Hr. unfold exp_of. rewrite He.
  destruct (Z.leb_spec MIN_TIMESTAMP e), (Z.leb_spec e MAX_TIMESTAMP); simpl;
    try reflexivity; lia.
Qed.

Lemma exp_of_raise c x : exp_of c = Raise x -> is_http x = false.
Proof.
  unfold exp_of. destruct (c_exp c) as [e|].
  - destruct (_ && _); [discriminate|]. intros H. injection H as <-. reflexivity.
  - intros H. injection H as <-. reflexivity.
Qed.

(** A rotation of a token that verifies and whose expiry is absent, or is
    one no [datetime] can hold, is answered 500 with nothing written. *)
Lemma refresh_access_token_bad_exp cfg now ja jr c k w user x :
  result_of (verify_refresh_token cfg now (Jwt c k)) w = Ok user ->
  exp_of c = Raise x ->
  refresh_access_token cfg now ja jr (Jwt c k) w = (Raise exn_refresh, w).
Proof.
  intros Hv He.
  assert (Ha : u_is_active user = true).
  { apply verify_token_ok in Hv. destruct Hv as (_ & _ & _ & sub & j & _ & _ & _ & Hu).
    apply find_some in Hu. destruct Hu as [_ Hu].
    apply andb_true_iff in Hu. tauto. }
  pose proof (verify_token_world cfg now (Jwt c k) "refresh"
                "Invalid refresh token" "Refresh token has been revoked" w) as Hw.
  unfold refresh_access_token. unfold result_of, verify_refresh_token in *.
  unfold bind at 1. unfold try_except at 1. unfold bind at 1.
  destruct (verify_token cfg now (Jwt c k) "refresh" "Invalid refresh token"
              "Refresh token has been revoked" w) as [r w'].
  simpl in Hv, Hw. subst r w'. rewrite Ha.
  unfold bind, lift, ret, raise.
  cbn -[blacklist_token create_access_token create_refresh_token exp_of].
  rewrite He, (exp_of_raise c He). reflexivity.
Qed.

(** A rotation whose verification succeeds, of a token whose expiry a
    [datetime] can hold, returns the new pair after one call of
    [blacklist_token] on the presented token. *)
Lemma refresh_access_token_verified cfg now ja jr c k w user e :
  result_of (verify_refresh_token cfg now (Jwt c k)) w = Ok user ->
  c_exp c = Some e ->
  MIN_TIMESTAMP <= e <= MAX_TIMESTAMP ->
  refresh_access_token cfg now ja jr (Jwt c k) w
  = (Ok (fst (create_access_token cfg now ja (u_id user) (Some 1800)),
         fst (create_refresh_token cfg now jr (u_id user) (Some 604800))),
     snd (blacklist_token (Jwt c k) e w)).
Proof.
  intros Hv He Hr.
  assert (Ha : u_is_active user = true).
  { apply verify_token_ok in Hv. destruct Hv as (_ & _ & _ & sub & j & _ & _ & _ & Hu).
    apply find_some in Hu. destruct Hu as [_ Hu].
    apply andb_true_iff in Hu. tauto. }
  pose proof (verify_token_world cfg now (Jwt c k) "refresh"
                "Invalid refresh token" "Refresh token has been revoked" w) as Hw.
  unfold refresh_access_token. unfold result_of, verify_refresh_token in *.
  unfold bind at 1. unfold try_except at 1. unfold bind at 1.
  destruct (verify_token cfg now (Jwt c k) "refresh" "Invalid refresh token"
              "Refresh token has been revoked" w) as [r w'].
  simpl in Hv, Hw. subst r w'. rewrite Ha.
  unfold bind, lift, ret.
  cbn -[blacklist_token create_access_token create_refresh_token exp_of].
  rewrite (exp_of_in_range c He Hr).
  pose proof (blacklist_token_total (Jwt c k) e w) as T. unfold result_of in T.
  destruct (blacklist_token (Jwt c k) e w) as [r1 w1]. simpl in T. subst r1.
  reflexivity.
Qed.

Lemma refresh_access_token_rejected cfg now ja jr t w x :
  result_of (verify_refresh_token cfg now t) w = Raise x ->
  refresh_access_token cfg now ja jr t w
  = (Raise (if is_http x then x else exn_refresh), w).
Proof.
  intros Hv.
  pose proof (verify_token_world cfg now t "refresh"
                "Invalid refresh token" "Refresh token has been revoked" w) as Hw.
  unfold refresh_access_token. unfold result_of, verify_refresh_token in *.
  unfold bind at 1. unfold try_except at 1. unfold bind at 1.
  destruct (verify_token cfg now t "refresh" "Invalid refresh token"
              "Refresh token has been revoked" w) as [r w'].
  simpl in Hv, Hw. subst r w'. unfold raise. destruct (is_http x); reflexivity.
Qed.

(** C2 (as the code has it).  Let r be a refresh token that verifies, with
    a non-empty jti for which the ledger holds no entry yet and an expiry
    that a datetime can hold (a second of the years 1 to 9999), and let the
    ledger write of the rotation go through.  Then the rotation returns a
    new pair and leaves the entry (jti of r, exp of r) in the ledger, and
    every later rotation or verification of r on that store, at a time
    before r's expiry, is refused with 401 "Refresh token has been
    revoked". *)
Theorem C2_rotation_single_use :
  forall (cfg : Settings) (w : World) (now now' : Z) (ja jr ja' jr' : string)
         (c : token_claims) (k : string) (user : User) (j : string) (e : Z)
         (fs : list bool),
    let r := Jwt c k in
    result_of (verify_refresh_token cfg now r) w = Ok user ->
    c_jti c = Some j -> j <> ""%string -> c_exp c = Some e ->
    MIN_TIMESTAMP <= e <= MAX_TIMESTAMP ->
    ledger_row j (token_blacklist (store w)) = None ->
    commits_ok 1 w ->
    now' < e ->
    let w1 := mkWorld (store_after (refresh_access_token cfg now ja jr r) w) fs in
    is_ok (result_of (refresh_access_token cfg now ja jr r) w) = true
    /\ token_blacklist (store w1)
       = token_blacklist (store w)
         ++ [ {| tb_jti := j; tb_token := r; tb_expires_at := e |} ]
    /\ result_of (refresh_access_token cfg now' ja' jr' r) w1 = Raise exn_refresh_revoked
    /\ result_of (verify_refresh_token cfg now' r) w1 = Raise exn_refresh_revoked.
Proof.
  intros cfg w now now' ja jr ja' jr' c k user j e fs r Hv Hj Hne He Hr Hfresh Hok Hlt w1.
  subst r w1. unfold store_after, result_of.
  rewrite (@refresh_access_token_verified cfg now ja jr c k w user e Hv He Hr).
  cbn [fst snd is_ok store].
  fold (store_after (blacklist_token (Jwt c k) e) w).
  rewrite blacklist_token_store, Hj, Hfresh.
  apply String.eqb_neq in Hne. rewrite Hne.
  assert (St : match faults w with
               | true :: _ => store w
               | _ => add_blacklisted
                        {| tb_jti := j; tb_token := Jwt c k; tb_expires_at := e |} (store w)
               end
               = add_blacklisted
                   {| tb_jti := j; tb_token := Jwt c k; tb_expires_at := e |} (store w)).
  { unfold commits_ok in Hok. destruct (faults w) as [|[] ?]; simpl in Hok;
      try discriminate; reflexivity. }
  rewrite St. clear St.
  apply verify_token_ok in Hv.
  destruct Hv as (Hk & _ & Ht & sub & j0 & Hs & Hj0 & _ & Hu).
  rewrite Hj in Hj0. inversion Hj0; subst j0 k.
  assert (V : verify_refresh_token cfg now' (Jwt c (SECRET_KEY cfg))
                (mkWorld (add_blacklisted
                   {| tb_jti := j; tb_token := Jwt c (SECRET_KEY cfg); tb_expires_at := e |}
                   (store w)) fs)
              = (Raise exn_refresh_revoked,
                 mkWorld (add_blacklisted
                   {| tb_jti := j; tb_token := Jwt c (SECRET_KEY cfg); tb_expires_at := e |}
                   (store w)) fs)).
  { unfold verify_refresh_token.
    rewrite (@verify_token_signed cfg now' c "refresh" _ _ _ sub j e Hs Hj He Ht);
      [|lia].
    replace (is_token_blacklisted now' _ j) with true; [reflexivity|].
    symmetry. apply is_token_blacklisted_true.
    exists {| tb_jti := j; tb_token := Jwt c (SECRET_KEY cfg); tb_expires_at := e |}.
    simpl. split; [apply in_or_app; right; left; reflexivity|]. split; [reflexivity|exact Hlt]. }
  split; [reflexivity|]. split; [reflexivity|]. split.
  - rewrite (@refresh_access_token_rejected cfg now' ja' jr' _ _ exn_refresh_revoked).
    + reflexivity.
    + unfold result_of. rewrite V. reflexivity.
  - rewrite V. reflexivity.
Qed.

Lemma C2_rotation_single_use_witness :
  result_of (refresh_access_token example_settings 3000 "a3" "r3" alice_refresh)
    (mkWorld (store_after (refresh_access_token example_settings 2000 "a2" "r2" alice_refresh)
                (session_world [] [])) [])
  = Raise exn_refresh_revoked.
Proof.
  destruct (@C2_rotation_single_use example_settings (session_world [] []) 2000 3000
              "a2" "r2" "a3" "r3"
              {| c_sub := Some "u1"%string; c_jti := Some "r1"%string;
                 c_exp := Some 605800; c_iat := Some 1000;
                 c_type := Some "refresh"%string |}
              "secret" alice "r1" 605800 [])
    as (_ & _ & H & _).
  - reflexivity.
  - reflexivity.
  - discriminate.
  - reflexivity.
  - unfold MIN_TIMESTAMP, MAX_TIMESTAMP. lia.
  - reflexivity.
  - reflexivity.
  - lia.
  - exact H.
Defined.

(** C2 (the claim as written fails).  Two stores on which [alice]'s refresh
    token verifies and is rotated successfully, and on which a second
    rotation of the same token, well before its expiry, succeeds again:
    one whose ledger write fails (the error is swallowed by
    blacklist_token), and one whose ledger already holds an expired entry
    under the token's jti (blacklist_token then inserts nothing, and the
    revocation check ignores the expired entry). *)
Lemma C2_rotation_replayed :
  (let w := session_world [] [true] in
   let w1 := snd (refresh_access_token example_settings 2000 "a2" "r2" alice_refresh w) in
   result_of (verify_refresh_token example_settings 2000 alice_refresh) w = Ok alice
   /\ is_ok (result_of (refresh_access_token example_settings 2000 "a2" "r2" alice_refresh) w)
      = true
   /\ token_blacklist (store w1) = []
   /\ is_ok (result_of (refresh_access_token example_settings 3000 "a3" "r3" alice_refresh) w1)
      = true)
  /\ (let stale := {| tb_jti := "r1"; tb_token := Garbage "forged"; tb_expires_at := 500 |} in
      let w := session_world [stale] [] in
      let w1 := snd (refresh_access_token example_settings 2000 "a2" "r2" alice_refresh w) in
      result_of (verify_refresh_token example_settings 2000 alice_refresh) w = Ok alice
      /\ is_ok (result_of (refresh_access_token example_settings 2000 "a2" "r2" alice_refresh) w)
         = true
      /\ token_blacklist (store w1) = [stale]
      /\ is_ok (result_of (refresh_access_token example_settings 3000 "a3" "r3" alice_refresh) w1)
         = true).
Proof. vm_compute. repeat split. Qed.

(** A refresh token signed with the key whose exp no datetime can hold
    verifies, and its rotation is answered 500 with nothing revoked. *)
Example rotation_far_expiry :
  let r := Jwt {| c_sub := Some "u1"%string; c_jti := Some "r1"%string;
                  c_exp := Some 1000000000000; c_iat := Some 1000;
                  c_type := Some "refresh"%string |} "secret" in
  let w := session_world [] [] in
  result_of (verify_refresh_token example_settings 2000 r) w = Ok alice
  /\ refresh_access_token example_settings 2000 "a2" "r2" r w = (Raise exn_refresh, w).
Proof. vm_compute. split; reflexivity. Qed.

(** ** Swallowed failures *)

Lemma blacklist_token_unwritten tok e w :
  no_jti tok \/ next_commit_fails w ->
  store_after (blacklist_token tok e) w = store w.
Proof.
  intros H. rewrite blacklist_token_store.
  destruct tok as [raw|c k]; [reflexivity|].
  destruct (c_jti c) as [j|] eqn:Hj; [|reflexivity].
  destruct (String.eqb j "") eqn:Hne; [reflexivity|].
  destruct (ledger_row j _); [reflexivity|].
  destruct H as [[H|H]|[fs H]].
  - congruence.
  - rewrite Hj in H. inversion H; subst j. discriminate.
  - rewrite H. reflexivity.
Qed.

(** A logout whose status update (commit and re-read) goes through and
    whose ledger writes fail. *)
Lemma logout_user_unwritten user a ae rt re w fs :
  faults w = false :: false :: true :: true :: fs ->
  exists w', logout_user user a ae rt re w = (Ok "Successfully logged out"%string, w')
             /\ token_blacklist (store w') = token_blacklist (store w).
Proof.
  intros Hf. unfold logout_user, try_except, bind, get_store, commit, refresh.
  rewrite Hf. cbn -[blacklist_token set_users token_truthy].
  match goal with |- context [blacklist_token a ae ?x] => set (w1 := x) end.
  destruct (blacklist_token_run a ae w1) as (w2 & R2 & S2 & F2).
  rewrite R2.
  rewrite (@blacklist_token_unwritten a ae w1) in S2
    by (right; eexists; reflexivity).
  assert (Hf2 : next_commit_fails w2).
  { unfold next_commit_fails. destruct F2 as [F2|F2]; rewrite F2; simpl;
      eexists; reflexivity. }
  destruct rt as [t|]; [destruct re as [x|]|]; try destruct (token_truthy t);
    try (unfold ret; eexists; split; [reflexivity|rewrite S2; reflexivity]).
  destruct (blacklist_token_run t x w2) as (w3 & R3 & S3 & _).
  rewrite R3. unfold ret. eexists. split; [reflexivity|].
  rewrite S3, (@blacklist_token_unwritten t x w2), S2 by (right; exact Hf2).
  reflexivity.
Qed.

(** C9.  blacklist_token returns normally on every input.  When the token
    carries no jti (or does not decode), or the database write fails, it
    leaves the store as it was.  Consequently a rotation whose token
    verifies (its expiry one a datetime can hold, a second of the years 1
    to 9999), and a logout whose status update went through (commit and
    re-read), report success although no ledger entry was written. *)
Theorem C9_blacklist_token_swallows :
  forall (cfg : Settings) (w : World),
    (forall tok e, result_of (blacklist_token tok e) w = Ok tt)
    /\ (forall tok e, no_jti tok \/ next_commit_fails w ->
                      store_after (blacklist_token tok e) w = store w)
    /\ (forall now ja jr c k user e,
          result_of (verify_refresh_token cfg now (Jwt c k)) w = Ok user ->
          c_exp c = Some e ->
          MIN_TIMESTAMP <= e <= MAX_TIMESTAMP ->
          next_commit_fails w ->
          is_ok (result_of (refresh_access_token cfg now ja jr (Jwt c k)) w) = true
          /\ store_after (refresh_access_token cfg now ja jr (Jwt c k)) w = store w)
    /\ (forall user access_token access_expires_at refresh_token refresh_expires_at fs,
          faults w = false :: false :: true :: true :: fs ->
          result_of (logout_user user access_token access_expires_at
                       refresh_token refresh_expires_at) w
          = Ok "Successfully logged out"%string
          /\ token_blacklist
               (store_after (logout_user user access_token access_expires_at
                               refresh_token refresh_expires_at) w)
             = token_blacklist (store w)).
Proof.
  intros cfg w. split; [|split; [|split]].
  - intros tok e. apply blacklist_token_total.
  - intros tok e H. apply blacklist_token_unwritten. exact H.
  - intros now ja jr c k user e Hv He Hr Hf. unfold result_of, store_after.
    rewrite (@refresh_access_token_verified cfg now ja jr c k w user e Hv He Hr).
    cbn [fst snd is_ok]. split; [reflexivity|].
    apply (@blacklist_token_unwritten (Jwt c k) e w). right. exact Hf.
  - intros user a ae rt re fs Hf.
    destruct (@logout_user_unwritten user a ae rt re w fs Hf) as (w' & R & L).
    unfold result_of, store_after. rewrite R. split; [reflexivity|exact L].
Qed.

Lemma C9_blacklist_token_swallows_witness :
  is_ok (result_of (refresh_access_token example_settings 2000 "a2" "r2" alice_refresh)
           (session_world [] [true])) = true
  /\ store_after (refresh_access_token example_settings 2000 "a2" "r2" alice_refresh)
       (session_world [] [true]) = store (session_world [] [true]).
Proof.
  destruct (@C9_blacklist_token_swallows example_settings (session_world [] [true]))
    as (_ & _ & H & _).
  apply (H 2000 "a2"%string "r2"%string
           {| c_sub := Some "u1"%string; c_jti := Some "r1"%string;
              c_exp := Some 605800; c_iat := Some 1000;
              c_type := Some "refresh"%string |}
           "secret"%string alice 605800).
  - reflexivity.
  - reflexivity.
  - unfold MIN_TIMESTAMP, MAX_TIMESTAMP. lia.
  - exists []. reflexivity.
Defined.

(** ** Errors and the store *)









(** ** Preconditions of booking creation *)



(** C8 (the code at the failing input).  A request whose start_time and
    end_time are written without a time zone, start in the future and end
    before start: the start validator makes start_time aware, the model
    validator then compares the naive end_time with it and raises
    TypeError, which is not a validation error: the request is not
    answered 422.  The same instants written with a time zone are
    answered 422. *)
Theorem C8_naive_end_time_type_error :
  let w := scenario_world in
  result_of (post_bookings 1000 "B" "S" (mkDatetime 5000 false) (mkDatetime 4000 false) "u2") w
  = Raise TypeError
  /\ result_of (post_bookings 1000 "B" "S" (mkDatetime 5000 true) (mkDatetime 4000 true) "u2") w
     = Raise (HTTPException 422 "end_time must be after start_time")
  /\ result_of (post_bookings 1000 "B" "S" (mkDatetime 5000 false) (mkDatetime 6000 false) "u2") w
     = Raise TypeError.
Proof. repeat split. Qed.

(* ===================================================================== *)
(** * Further properties of the booking scheduler *)
(* ===================================================================== *)

Lemma compatible_sym a b : compatible a b -> compatible b a.
Proof.
  unfold compatible, overlaps. intros H Hs Hb Ha [H1 H2].
  apply H; auto.
Qed.

(** A row the conflict query does not select, and which the query does not
    exclude by id, is compatible with any row of that service and window. *)
Lemma conflict_row_false_compatible sid s e x b n :
  conflict_row sid s e x b = false ->
  (forall i, x = Some i -> i <> b_id b) ->
  b_service_id n = sid -> b_start_time n = s -> b_end_time n = e ->
  compatible b n.
Proof.
  intros Hc Hx Hsid Hs He Hsv Hab Han [H1 H2].
  assert (Hcond : conflict_condition s e b = true).
  { apply conflict_condition_three. apply overlaps_three_conditions.
    unfold overlaps. subst s e. lia. }
  unfold conflict_row in Hc. rewrite Hcond, Hab in Hc.
  replace (String.eqb (b_service_id b) sid) with true in Hc
    by (symmetry; apply String.eqb_eq; congruence).
  simpl in Hc. destruct x as [i|]; [|discriminate].
  destruct (String.eqb i ""); [discriminate|].
  apply negb_false_iff, String.eqb_eq in Hc. apply (Hx i eq_refl). congruence.
Qed.

Lemma has_time_conflict_false st sid s e x :
  _has_time_conflict st sid (Some s) (Some e) x = Ok false ->
  forall b, In b (bookings st) -> conflict_row sid s e x b = false.
Proof.
  unfold _has_time_conflict. destruct (find _ _) eqn:F; [discriminate|].
  intros _ b Hin. exact (find_none _ _ F b Hin).
Qed.

Lemma no_double_booking_app l b :
  no_double_booking l -> (forall x, In x l -> compatible x b) ->
  no_double_booking (l ++ [b]).
Proof.
  unfold no_double_booking. induction 1 as [|x l Hx Hl IH]; intros Hb; simpl.
  - constructor; constructor.
  - constructor.
    + apply Forall_app. split; [exact Hx|].
      constructor; [apply Hb; left; reflexivity|constructor].
    + apply IH. intros y Hy. apply Hb. right. exact Hy.
Qed.

(** What create_booking leaves: the store as it was, or the store with one
    row appended that the conflict query let through. *)
Lemma create_booking_store now new_id booking user_id w :
  store_after (create_booking now new_id booking user_id) w = store w
  \/ (_has_time_conflict (store w) (bc_service_id booking)
        (Some (ts (bc_start_time booking))) (Some (ts (bc_end_time booking))) None
      = Ok false
      /\ store_after (create_booking now new_id booking user_id) w
         = add_booking
             {| b_id := new_id; b_user_id := user_id;
                b_service_id := bc_service_id booking; b_status := pending;
                b_start_time := ts (bc_start_time booking);
                b_end_time := ts (bc_end_time booking); b_created_at := now |}
             (store w)).
Proof.
  unfold create_booking. unfold_m. cbn -[_has_time_conflict].
  destruct (find _ (services (store w))); cbn -[_has_time_conflict]; [|left; reflexivity].
  destruct (has_time_conflict_total (store w) (bc_service_id booking)
              (ts (bc_start_time booking)) (ts (bc_end_time booking)) None) as [c Hc].
  rewrite Hc. destruct c; simpl; [left; reflexivity|].
  destruct (faults w) as [|[] [|[] ?]]; simpl; auto.
Qed.

(** X1.  create_booking keeps the scheduling invariant: if no two pending
    or confirmed bookings of one service overlap before the call, none do
    after it, whatever the request, the clock and the outcome. *)
Theorem create_booking_keeps_no_double_booking :
  forall (w : World) (now : Z) (new_id user_id : string) (booking : BookingCreate),
    no_double_booking (bookings (store w)) ->
    no_double_booking
      (bookings (store_after (create_booking now new_id booking user_id) w)).
Proof.
  intros w now new_id user_id booking Hinv.
  destruct (create_booking_store now new_id booking user_id w) as [E|[Hc E]];
    rewrite E.
  { exact Hinv. }
  simpl. apply no_double_booking_app; [exact Hinv|].
  intros x Hx.
  apply (@conflict_row_false_compatible (bc_service_id booking)
           (ts (bc_start_time booking)) (ts (bc_end_time booking)) None x);
    try reflexivity.
  - exact (@has_time_conflict_false _ _ _ _ _ Hc x Hx).
  - intros i Hi. discriminate.
Qed.

Lemma create_booking_keeps_no_double_booking_witness :
  no_double_booking
    (bookings (store_after (create_booking 0 "C" (request "S" 39600 43200) "u2")
                 scenario_world)).
Proof.
  apply create_booking_keeps_no_double_booking.
  simpl. constructor; constructor.
Defined.

(** The window the conflict check of an update looks at is the window the
    booking has after the patch, when the patch moves it. *)
Lemma reschedule_window u b :
  reschedules u ->
  let d := model_dump u in
  dict_mem k_start_time d || dict_mem k_end_time d = true
  /\ time_of (dict_get k_start_time d (Some (VTime (mkDatetime (b_start_time b) false))))
     = Some (patched_start u b)
  /\ time_of (dict_get k_end_time d (Some (VTime (mkDatetime (b_end_time b) false))))
     = Some (patched_end u b).
Proof.
  unfold reschedules, patched_start, patched_end.
  destruct u as [[| |st] [| |en] [| |sta]]; simpl;
    intros (H1 & H2 & H3); try congruence; try (destruct H3; congruence);
    repeat split.
Qed.

Lemma patched_window u b :
  let b' := apply_update_data (model_dump u) b in
  b_start_time b' = patched_start u b /\ b_end_time b' = patched_end u b.
Proof.
  unfold patched_start, patched_end.
  destruct u as [[| |st] [| |en] [| |sta]]; cbv; split; reflexivity.
Qed.

(** What update_booking leaves: the store as it was, or the found row
    written back patched, after the conflict query, if the patch names a
    time, selected no row. *)
Lemma update_booking_store booking_id u user_id is_admin w :
  store_after (update_booking booking_id u user_id is_admin) w = store w
  \/ exists b,
       find (fun x => String.eqb (b_id x) booking_id) (bookings (store w)) = Some b
       /\ store_after (update_booking booking_id u user_id is_admin) w
          = set_bookings
              (write_booking (apply_update_data (model_dump u) b) (bookings (store w)))
              (store w)
       /\ let d := model_dump u in
          (dict_mem k_start_time d || dict_mem k_end_time d = true ->
           _has_time_conflict (store w) (b_service_id b)
             (time_of (dict_get k_start_time d
                         (Some (VTime (mkDatetime (b_start_time b) false)))))
             (time_of (dict_get k_end_time d
                         (Some (VTime (mkDatetime (b_end_time b) false)))))
             (Some booking_id) = Ok false).
Proof.
  unfold update_booking. unfold_m.
  destruct (find _ (bookings (store w))) as [b|] eqn:F; cbn -[_has_time_conflict];
    [|left; reflexivity].
  destruct (negb is_admin && _ && _); cbn -[_has_time_conflict]; [left; reflexivity|].
  destruct (dict_mem k_start_time (model_dump u) || dict_mem k_end_time (model_dump u))
    eqn:Hr; cbn -[_has_time_conflict].
  - destruct (negb is_admin && negb (status_active (b_status b)));
      cbn -[_has_time_conflict]; [left; reflexivity|].
    destruct (dict_mem k_status (model_dump u) && _ && _ && _);
      cbn -[_has_time_conflict]; [left; reflexivity|].
    destruct (_has_time_conflict _ _ _ _ _) as [[|]|x] eqn:Hc; cbn -[_has_time_conflict];
      [left; reflexivity| |destruct (is_http x); left; reflexivity].
    destruct (faults w) as [|[] [|[] ?]]; simpl; try (left; reflexivity);
      right; exists b; auto.
  - destruct (dict_mem k_status (model_dump u) && _ && _ && _); simpl; [left; reflexivity|].
    destruct (faults w) as [|[] [|[] ?]]; simpl; try (left; reflexivity);
      right; exists b; repeat split; auto; intros; discriminate.
Qed.

Lemma write_booking_In b' l x :
  In x (write_booking b' l) -> x = b' \/ In x l.
Proof.
  induction l as [|y l IH]; simpl; [tauto|].
  destruct (String.eqb (b_id y) (b_id b')); simpl; intros [H|H]; auto.
  destruct (IH H); auto.
Qed.

Lemma no_double_booking_write b' l :
  NoDup (map b_id l) ->
  no_double_booking l ->
  (forall x, In x l -> b_id x <> b_id b' -> compatible x b') ->
  no_double_booking (write_booking b' l).
Proof.
  unfold no_double_booking. intros Hnd Hinv. revert Hnd.
  induction Hinv as [|x l Hx Hl IH]; intros Hnd Hb; simpl; [constructor|].
  inversion Hnd as [|? ? Hnotin Hnd']; subst.
  destruct (String.eqb (b_id x) (b_id b')) eqn:E.
  - apply String.eqb_eq in E. constructor; [|exact Hl].
    apply Forall_forall. intros y Hy. apply compatible_sym. apply Hb.
    + right. exact Hy.
    + intros Heq. apply Hnotin. rewrite E, <- Heq. apply in_map. exact Hy.
  - apply String.eqb_neq in E. constructor.
    + apply Forall_forall. intros y Hy.
      destruct (write_booking_In _ _ _ Hy) as [->|Hy'].
      * apply Hb; [left; reflexivity|exact E].
      * rewrite Forall_forall in Hx. apply Hx. exact Hy'.
    + apply IH; [exact Hnd'|]. intros y Hy. apply Hb. right. exact Hy.
Qed.

(** X2.  update_booking keeps the scheduling invariant when the patch moves
    the booking: with ids unique in the table and a patch that names a
    start or an end (none of them null), no two pending or confirmed
    bookings of one service overlap after the call if none did before,
    whoever calls and whatever the status the patch sets. *)
Theorem update_booking_keeps_no_double_booking :
  forall (w : World) (booking_id : string) (u : BookingUpdate)
         (user_id : option string) (is_admin : bool),
    NoDup (map b_id (bookings (store w))) ->
    reschedules u ->
    no_double_booking (bookings (store w)) ->
    no_double_booking
      (bookings (store_after (update_booking booking_id u user_id is_admin) w)).
Proof.
  intros w booking_id u user_id is_admin Hnd Hr Hinv.
  destruct (update_booking_store booking_id u user_id is_admin w)
    as [E|(b & F & E & Hc)]; rewrite E.
  { exact Hinv. }
  simpl. cbv zeta in Hc.
  destruct (reschedule_window b Hr) as (Hm & Hs & He). cbv zeta in Hm, Hs, He.
  rewrite Hs, He in Hc. specialize (Hc Hm).
  destruct (apply_update_data_spec u b) as (Hid & _ & Hsv & _).
  destruct (patched_window u b) as (Hps & Hpe).
  apply find_some in F. destruct F as [_ Fid]. apply String.eqb_eq in Fid.
  apply no_double_booking_write; [exact Hnd|exact Hinv|].
  intros x Hx Hne.
  apply (@conflict_row_false_compatible (b_service_id b)
           (patched_start u b) (patched_end u b) (Some booking_id) x); auto.
  - exact (@has_time_conflict_false _ _ _ _ _ Hc x Hx).
  - intros i Hi. inversion Hi; subst i. intros Heq. apply Hne.
    rewrite Hid. congruence.
Qed.

Lemma update_booking_keeps_no_double_booking_witness :
  no_double_booking
    (bookings (store_after
       (update_booking "A"
          {| bu_start_time := Value (mkDatetime 37800 true);
             bu_end_time := Unset; bu_status := Unset |}
          (Some "u1"%string) false) owner_patch_world)).
Proof.
  apply update_booking_keeps_no_double_booking.
  - simpl. constructor; [simpl; tauto|constructor].
  - unfold reschedules. simpl. repeat split; try discriminate. left. discriminate.
  - simpl. constructor; constructor.
Defined.

(** A patch that only sets the status runs no conflict check: here the
    owner sets a cancelled booking back to pending on a slot that another
    booking has taken meanwhile, and the table then holds two overlapping
    pending bookings of one service. *)
Example status_patch_double_books :
  let a := {| b_id := "A"; b_user_id := "u1"; b_service_id := "S";
              b_status := cancelled; b_start_time := 36000;
              b_end_time := 39600; b_created_at := 0 |} in
  let b := {| b_id := "B"; b_user_id := "u2"; b_service_id := "S";
              b_status := pending; b_start_time := 36000;
              b_end_time := 39600; b_created_at := 0 |} in
  let w := {| store := {| users := []; services := []; bookings := [a; b];
                          token_blacklist := [] |}; faults := [] |} in
  let patch := {| bu_start_time := Unset; bu_end_time := Unset;
                  bu_status := Value pending |} in
  no_double_booking (bookings (store w))
  /\ ~ no_double_booking
         (bookings (store_after (update_booking "A" patch (Some "u1"%string) false) w)).
Proof.
  cbv zeta. split.
  - repeat constructor. unfold compatible. simpl. discriminate.
  - simpl. intros H. inversion H as [|? ? Hf _]; subst.
    inversion Hf as [|? ? Hc _]; subst.
    apply Hc; simpl; auto. unfold overlaps. simpl. lia.
Qed.

Lemma conflict_row_excluding sid s e id x :
  id <> ""%string ->
  (conflict_row sid s e (Some id) x = true
   <-> b_id x <> id /\ conflicting sid s e x).
Proof.
  intros Hid. unfold conflict_row, conflicting.
  apply String.eqb_neq in Hid. rewrite Hid.
  rewrite !andb_true_iff, negb_true_iff, String.eqb_eq, String.eqb_neq,
    conflict_condition_three, status_active_iff.
  tauto.
Qed.

Lemma conflicting_blocking sid s e x :
  s < e -> b_start_time x < b_end_time x ->
  (conflicting sid s e x <-> blocking sid s e x).
Proof.
  intros Hse HSE. unfold conflicting, blocking.
  rewrite (three_conditions_overlaps Hse HSE). tauto.
Qed.

Lemma blocking_conflicting sid s e x : blocking sid s e x -> conflicting sid s e x.
Proof.
  unfold conflicting, blocking. intros (H1 & H2 & H3).
  auto using overlaps_three_conditions.
Qed.

(** A patch that moves a booking the caller may move ends with 409 exactly
    when the conflict query, run on the new window with the booking's own
    id excluded, selects a row; the store is then as before. *)
Lemma update_booking_conflict_query w booking_id u user_id is_admin b :
  find (fun x => String.eqb (b_id x) booking_id) (bookings (store w)) = Some b ->
  is_admin = true
  \/ (user_id = Some (b_user_id b) /\ (b_status b = pending \/ b_status b = confirmed)) ->
  reschedules u ->
  (result_of (update_booking booking_id u user_id is_admin) w = Raise exn_conflict
   <-> _has_time_conflict (store w) (b_service_id b)
         (Some (patched_start u b)) (Some (patched_end u b)) (Some booking_id) = Ok true)
  /\ (result_of (update_booking booking_id u user_id is_admin) w = Raise exn_conflict ->
      store_after (update_booking booking_id u user_id is_admin) w = store w).
Proof.
  intros F Hperm Hr.
  destruct (reschedule_window b Hr) as (Hm & Hs & He). cbv zeta in Hm, Hs, He.
  unfold update_booking. unfold_m. rewrite F. cbn -[_has_time_conflict].
  assert (Hauth : negb is_admin
                  && negb (String.eqb match user_id with
                                      | Some u0 => u0
                                      | None => "None"%string
                                      end "")
                  && negb (String.eqb (b_user_id b)
                             match user_id with
                             | Some u0 => u0
                             | None => "None"%string
                             end) = false).
  { destruct Hperm as [->|[-> _]]; [reflexivity|].
    rewrite String.eqb_refl. simpl. rewrite !andb_false_r. reflexivity. }
  assert (Hopen : negb is_admin && negb (status_active (b_status b)) = false).
  { destruct Hperm as [->|[_ Hst]]; [reflexivity|].
    rewrite (proj2 (status_active_iff _) Hst). simpl. apply andb_false_r. }
  rewrite Hauth, Hm. cbn -[_has_time_conflict]. rewrite Hopen.
  replace (dict_mem k_status (model_dump u)
           && is_cancelled (dict_get k_status (model_dump u) None)
           && negb is_admin && negb (status_active (b_status b))) with false
    by (rewrite <- andb_assoc, Hopen, andb_false_r; reflexivity).
  rewrite Hs, He.
  destruct (has_time_conflict_total (store w) (b_service_id b)
              (patched_start u b) (patched_end u b) (Some booking_id)) as [c Hc].
  rewrite Hc. destruct c; simpl.
  - split; [split|]; reflexivity.
  - destruct (faults w) as [|[] [|[] ?]]; simpl; split; try split; discriminate.
Qed.

(** X3.  The conflict check of an update looks at the other bookings only.
    For an admin, or for the owner of a booking whose status is pending or
    confirmed, and a patch that names a start or an end, none of them null,
    update_booking answers 409 exactly when a booking of the same service
    whose status is pending or confirmed, other than the booking itself,
    meets one of the three conditions of the conflict query against the
    new window.  Whatever the stored windows are, every such booking that
    overlaps the new window makes the answer 409; and when the new window
    and the windows of the other stored bookings are well formed (start
    before end), 409 is answered exactly when such a booking overlaps the
    new window.  The booking's own previous window never blocks it, and a
    409 leaves the store as it was. *)
Theorem update_booking_conflict_iff :
  forall (w : World) (booking_id : string) (u : BookingUpdate)
         (user_id : option string) (is_admin : bool) (b : Booking),
    find (fun x => String.eqb (b_id x) booking_id) (bookings (store w)) = Some b ->
    booking_id <> ""%string ->
    is_admin = true
    \/ (user_id = Some (b_user_id b)
        /\ (b_status b = pending \/ b_status b = confirmed)) ->
    reschedules u ->
    let m := update_booking booking_id u user_id is_admin in
    let sid := b_service_id b in
    let s := patched_start u b in
    let e := patched_end u b in
    (result_of m w = Raise exn_conflict
     <-> exists x, In x (bookings (store w)) /\ b_id x <> booking_id
                   /\ conflicting sid s e x)
    /\ (forall x, In x (bookings (store w)) -> b_id x <> booking_id ->
          blocking sid s e x -> result_of m w = Raise exn_conflict)
    /\ (s < e ->
        (forall x, In x (bookings (store w)) -> b_id x <> booking_id ->
           b_start_time x < b_end_time x) ->
        (result_of m w = Raise exn_conflict
         <-> exists x, In x (bookings (store w)) /\ b_id x <> booking_id
                       /\ blocking sid s e x))
    /\ (result_of m w = Raise exn_conflict -> store_after m w = store w).
Proof.
  intros w booking_id u user_id is_admin b F Hid Hperm Hr m sid s e.
  destruct (@update_booking_conflict_query w booking_id u user_id is_admin b F Hperm Hr)
    as [Hres Hst].
  fold m sid s e in Hres, Hst.
  assert (Hc : result_of m w = Raise exn_conflict
               <-> exists x, In x (bookings (store w)) /\ b_id x <> booking_id
                     /\ conflicting sid s e x).
  { rewrite Hres, has_time_conflict_true.
    split; intros [x [Hin Hx]]; exists x; (split; [exact Hin|]).
    - apply conflict_row_excluding in Hx; auto.
    - apply conflict_row_excluding; auto. }
  split; [exact Hc|]. split; [|split; [|exact Hst]].
  - intros x Hin Hne Hb. apply Hc. exists x.
    auto using blocking_conflicting.
  - intros Hse Hwf. rewrite Hc.
    split; intros (x & Hin & Hne & Hx); exists x; (split; [exact Hin|]);
      (split; [exact Hne|]).
    + apply conflicting_blocking in Hx; auto.
    + apply blocking_conflicting. exact Hx.
Qed.

Lemma update_booking_conflict_iff_witness :
  result_of (update_booking "A"
               {| bu_start_time := Unset; bu_end_time := Value (mkDatetime 41400 true);
                  bu_status := Unset |}
               (Some "u1"%string) false) reschedule_world
  = Raise exn_conflict
  /\ ~ (exists x, In x (bookings (store reschedule_world)) /\ b_id x <> "A"%string
                  /\ blocking "S" 37800 39600 x).
Proof.
  split.
  - destruct (@update_booking_conflict_iff reschedule_world "A"
                {| bu_start_time := Unset; bu_end_time := Value (mkDatetime 41400 true);
                   bu_status := Unset |}
                (Some "u1"%string) false
                {| b_id := "A"; b_user_id := "u1"; b_service_id := "S";
                   b_status := pending; b_start_time := 36000;
                   b_end_time := 39600; b_created_at := 0 |})
      as (_ & H & _).
    + reflexivity.
    + discriminate.
    + right. split; [reflexivity|left; reflexivity].
    + unfold reschedules. simpl. repeat split; try discriminate. right. discriminate.
    + apply (H {| b_id := "B"; b_user_id := "u2"; b_service_id := "S";
                  b_status := pending; b_start_time := 39600;
                  b_end_time := 43200; b_created_at := 0 |}).
      * simpl. auto.
      * discriminate.
      * unfold blocking, overlaps. simpl. repeat split; auto; lia.
  - destruct (@update_booking_conflict_iff reschedule_world "A"
                {| bu_start_time := Value (mkDatetime 37800 true); bu_end_time := Unset;
                   bu_status := Unset |}
                (Some "u1"%string) false
                {| b_id := "A"; b_user_id := "u1"; b_service_id := "S";
                   b_status := pending; b_start_time := 36000;
                   b_end_time := 39600; b_created_at := 0 |})
      as (_ & _ & H & _).
    + reflexivity.
    + discriminate.
    + right. split; [reflexivity|left; reflexivity].
    + unfold reschedules. simpl. repeat split; try discriminate. left. discriminate.
    + intros Hex. apply H in Hex.
      * discriminate.
      * reflexivity.
      * simpl. intros x [<-|[<-|[]]] _; reflexivity.
Defined.

(** A stored window whose end is before its start blocks a move it does
    not overlap: with [1000, 500) stored pending on the service, moving
    another booking of the service to [600, 800) is answered 409. *)
Example inverted_window_blocks :
  let a := {| b_id := "A"; b_user_id := "u1"; b_service_id := "S";
              b_status := pending; b_start_time := 100;
              b_end_time := 200; b_created_at := 0 |} in
  let b := {| b_id := "B"; b_user_id := "u2"; b_service_id := "S";
              b_status := pending; b_start_time := 1000;
              b_end_time := 500; b_created_at := 0 |} in
  let w := {| store := {| users := []; services := []; bookings := [a; b];
                          token_blacklist := [] |}; faults := [] |} in
  let patch := {| bu_start_time := Value (mkDatetime 600 true);
                  bu_end_time := Value (mkDatetime 800 true);
                  bu_status := Unset |} in
  result_of (update_booking "A" patch (Some "u1"%string) false) w = Raise exn_conflict
  /\ ~ overlaps 600 800 (b_start_time b) (b_end_time b).
Proof. cbv zeta. split; [reflexivity|]. unfold overlaps. simpl. lia. Qed.

(** X4.  Without admin rights, update_booking and delete_booking refuse
    with 403 every caller whose id is not the owner's, whatever the patch,
    the clock and the status of the booking, and leave the store as it was;
    this includes a call that gives no user id at all. *)
Theorem booking_owner_check :
  forall (w : World) (now : Z) (booking_id : string) (u : BookingUpdate)
         (user_id : option string) (b : Booking),
    find (fun x => String.eqb (b_id x) booking_id) (bookings (store w)) = Some b ->
    caller_id user_id <> ""%string ->
    b_user_id b <> caller_id user_id ->
    update_booking booking_id u user_id false w = (Raise exn_not_authorized, w)
    /\ delete_booking now booking_id user_id false w = (Raise exn_not_authorized_delete, w).
Proof.
  intros w now booking_id u user_id b F Hne Hown.
  apply String.eqb_neq in Hne. apply String.eqb_neq in Hown.
  unfold caller_id in *.
  unfold update_booking, delete_booking. unfold_m. rewrite F, Hne, Hown. simpl.
  split; reflexivity.
Qed.

Lemma booking_owner_check_witness :
  update_booking "A" {| bu_start_time := Unset; bu_end_time := Unset;
                        bu_status := Value cancelled |} None false owner_patch_world
  = (Raise exn_not_authorized, owner_patch_world).
Proof.
  destruct (@booking_owner_check owner_patch_world 0 "A"
              {| bu_start_time := Unset; bu_end_time := Unset;
                 bu_status := Value cancelled |} None
              {| b_id := "A"; b_user_id := "u1"; b_service_id := "S";
                 b_status := pending; b_start_time := 36000;
                 b_end_time := 39600; b_created_at := 0 |}) as [H _].
  - reflexivity.
  - discriminate.
  - discriminate.
  - exact H.
Defined.

(** X5.  A cancelled or completed booking is closed to its owner: without
    admin rights, a patch that names start_time or end_time (even as null)
    is refused with 400 "Can only reschedule ...", and a patch that sets
    status=cancelled is refused with 400 "Can only cancel ..."; the store is
    left as it was. *)
Theorem closed_booking_refuses_owner :
  forall (w : World) (booking_id : string) (u : BookingUpdate) (b : Booking),
    find (fun x => String.eqb (b_id x) booking_id) (bookings (store w)) = Some b ->
    status_active (b_status b) = false ->
    (bu_start_time u <> Unset \/ bu_end_time u <> Unset ->
     update_booking booking_id u (Some (b_user_id b)) false w = (Raise exn_reschedule, w))
    /\ (bu_start_time u = Unset -> bu_end_time u = Unset ->
        bu_status u = Value cancelled ->
        update_booking booking_id u (Some (b_user_id b)) false w = (Raise exn_cancel, w)).
Proof.
  intros w booking_id u b F Hst.
  unfold update_booking. unfold_m. rewrite F, String.eqb_refl, Hst. simpl.
  rewrite andb_false_r. split.
  - intros H. destruct u as [[| |st] [| |en] [| |sta]]; simpl in *;
      try reflexivity; destruct H; congruence.
  - intros H1 H2 H3. destruct u as [st en sta]; simpl in *. subst. reflexivity.
Qed.

Lemma closed_booking_refuses_owner_witness :
  let w := {| store := {| users := []; services := [];
                          bookings := [ {| b_id := "A"; b_user_id := "u1";
                                           b_service_id := "S"; b_status := completed;
                                           b_start_time := 36000; b_end_time := 39600;
                                           b_created_at := 0 |} ];
                          token_blacklist := [] |}; faults := [] |} in
  update_booking "A" {| bu_start_time := Null; bu_end_time := Unset; bu_status := Unset |}
    (Some "u1"%string) false w = (Raise exn_reschedule, w).
Proof.
  cbv zeta.
  match goal with
  | |- update_booking _ ?u _ _ ?w = _ =>
      destruct (@closed_booking_refuses_owner w "A" u
                  {| b_id := "A"; b_user_id := "u1"; b_service_id := "S";
                     b_status := completed; b_start_time := 36000;
                     b_end_time := 39600; b_created_at := 0 |}) as [H _]
  end.
  - reflexivity.
  - reflexivity.
  - apply H. left. discriminate.
Defined.

Lemma remove_booking_lookup id l :
  NoDup (map b_id l) ->
  find (fun x => String.eqb (b_id x) id) (remove_booking id l) = None.
Proof.
  induction l as [|x l IH]; simpl; intros Hnd; [reflexivity|].
  inversion Hnd as [|? ? Hnotin Hnd']; subst.
  destruct (String.eqb (b_id x) id) eqn:E.
  - apply String.eqb_eq in E. subst id.
    destruct (find _ l) as [y|] eqn:F; [|reflexivity].
    apply find_some in F. destruct F as [Hin Hy]. apply String.eqb_eq in Hy.
    exfalso. apply Hnotin. rewrite <- Hy. apply in_map. exact Hin.
  - simpl. rewrite E. apply IH. exact Hnd'.
Qed.

Lemma remove_booking_others id l x :
  In x l -> b_id x <> id -> In x (remove_booking id l).
Proof.
  induction l as [|y l IH]; simpl; [tauto|].
  intros [->|Hin] Hne.
  - apply String.eqb_neq in Hne. rewrite Hne. left. reflexivity.
  - destruct (String.eqb (b_id y) id); [exact Hin|right; apply IH; assumption].
Qed.

Lemma remove_booking_subset id l x :
  In x (remove_booking id l) -> In x l.
Proof.
  induction l as [|y l IH]; simpl; [tauto|].
  destruct (String.eqb (b_id y) id); simpl; [auto|]. intros [H|H]; auto.
Qed.

(** X6.  delete_booking.  The owner of a booking that has started
    (start_time <= now) is refused with 400 and nothing is deleted.  An
    admin at any time, and the owner before the start, delete it when the
    commit goes through: the call returns the row, the id is no longer
    found (ids being unique), every other row stays, no row is added and
    the other tables are untouched. *)
Theorem delete_booking_spec :
  forall (w : World) (now : Z) (booking_id : string) (b : Booking),
    find (fun x => String.eqb (b_id x) booking_id) (bookings (store w)) = Some b ->
    NoDup (map b_id (bookings (store w))) ->
    (b_start_time b <= now ->
     delete_booking now booking_id (Some (b_user_id b)) false w = (Raise exn_started, w))
    /\ (forall user_id is_admin,
          is_admin = true \/ (user_id = Some (b_user_id b) /\ now < b_start_time b) ->
          commits_ok 1 w ->
          let st' := store_after (delete_booking now booking_id user_id is_admin) w in
          result_of (delete_booking now booking_id user_id is_admin) w = Ok b
          /\ get_booking_by_id st' booking_id = None
          /\ (forall x, In x (bookings (store w)) -> b_id x <> booking_id ->
                        In x (bookings st'))
          /\ (forall x, In x (bookings st') -> In x (bookings (store w)))
          /\ users st' = users (store w) /\ services st' = services (store w)
          /\ token_blacklist st' = token_blacklist (store w)).
Proof.
  intros w now booking_id b F Hnd.
  pose proof F as Fid. apply find_some in Fid. destruct Fid as [_ Fid].
  apply String.eqb_eq in Fid.
  split.
  - intros Hle. unfold delete_booking. unfold_m. rewrite F, String.eqb_refl. simpl.
    rewrite andb_false_r. apply Z.leb_le in Hle. rewrite Hle. reflexivity.
  - intros user_id is_admin Hperm Hok. cbv zeta.
    assert (E : delete_booking now booking_id user_id is_admin w
                = (Ok b, {| store := set_bookings (remove_booking (b_id b)
                                                     (bookings (store w))) (store w);
                            faults := tl (faults w) |})).
    { unfold delete_booking. unfold_m. rewrite F. simpl.
      assert (Hauth : negb is_admin
                      && negb (String.eqb match user_id with
                                          | Some u0 => u0
                                          | None => "None"%string
                                          end "")
                      && negb (String.eqb (b_user_id b)
                                 match user_id with
                                 | Some u0 => u0
                                 | None => "None"%string
                                 end) = false).
      { destruct Hperm as [->|[-> _]]; [reflexivity|].
        rewrite String.eqb_refl. simpl. rewrite !andb_false_r. reflexivity. }
      assert (Hlate : negb is_admin && (b_start_time b <=? now) = false).
      { destruct Hperm as [->|[_ Hlt]]; [reflexivity|].
        apply Z.leb_gt in Hlt. rewrite Hlt. apply andb_false_r. }
      rewrite Hauth, Hlate. unfold commits_ok in Hok.
      destruct (faults w) as [|[] ?]; simpl in Hok; try discriminate; reflexivity. }
    unfold result_of, store_after, get_booking_by_id. rewrite E. simpl. rewrite Fid.
    split; [reflexivity|]. split; [apply remove_booking_lookup; exact Hnd|].
    split; [intros x Hx Hne; apply remove_booking_others; assumption|].
    split; [intros x Hx; eapply remove_booking_subset; exact Hx|].
    auto.
Qed.

Lemma delete_booking_spec_witness :
  result_of (delete_booking 1000 "A" (Some "u1"%string) false) owner_patch_world
  = Ok {| b_id := "A"; b_user_id := "u1"; b_service_id := "S";
          b_status := pending; b_start_time := 36000;
          b_end_time := 39600; b_created_at := 0 |}.
Proof.
  destruct (@delete_booking_spec owner_patch_world 1000 "A"
              {| b_id := "A"; b_user_id := "u1"; b_service_id := "S";
                 b_status := pending; b_start_time := 36000;
                 b_end_time := 39600; b_created_at := 0 |}) as [_ H].
  - reflexivity.
  - simpl. constructor; [simpl; tauto|constructor].
  - destruct (H (Some "u1"%string) false) as [R _].
    + right. split; reflexivity.
    + reflexivity.
    + exact R.
Defined.

(** ** Listing *)

Lemma insert_desc_perm b l : Permutation (insert_desc b l) (b :: l).
Proof.
  induction l as [|x l IH]; simpl; [apply Permutation_refl|].
  destruct (b_start_time x <=? b_start_time b); [apply Permutation_refl|].
  apply perm_trans with (x :: b :: l); [apply perm_skip; exact IH|apply perm_swap].
Qed.

Lemma sort_desc_perm l : Permutation (sort_desc l) l.
Proof.
  induction l as [|x l IH]; simpl; [constructor|].
  apply perm_trans with (x :: sort_desc l); [apply insert_desc_perm|].
  apply perm_skip. exact IH.
Qed.

Lemma insert_desc_sorted b l :
  StronglySorted desc l -> StronglySorted desc (insert_desc b l).
Proof.
  induction 1 as [|x l Hl IH Hx]; simpl.
  - constructor; constructor.
  - destruct (Z.leb_spec (b_start_time x) (b_start_time b)) as [Hle|Hgt].
    + constructor; [constructor; assumption|].
      constructor; [exact Hle|].
      rewrite Forall_forall in *. intros y Hy. specialize (Hx y Hy).
      unfold desc in *. lia.
    + constructor; [exact IH|].
      rewrite Forall_forall in *. intros y Hy.
      apply (Permutation_in _ (insert_desc_perm b l)) in Hy.
      destruct Hy as [<-|Hy]; [unfold desc; lia|apply Hx; exact Hy].
Qed.

Lemma sort_desc_sorted l : StronglySorted desc (sort_desc l).
Proof.
  induction l as [|x l IH]; simpl; [constructor|apply insert_desc_sorted; exact IH].
Qed.

Lemma in_firstn_in {A} n (l : list A) x : In x (firstn n l) -> In x l.
Proof.
  revert n. induction l as [|y l IH]; intros [|n]; simpl; try tauto.
  intros [H|H]; [left; exact H|right; exact (IH n H)].
Qed.

Lemma in_skipn_in {A} n (l : list A) x : In x (skipn n l) -> In x l.
Proof.
  revert l. induction n as [|n IH]; intros [|y l]; simpl; try tauto.
  intros H. right. exact (IH l H).
Qed.

Lemma firstn_sorted n l : StronglySorted desc l -> StronglySorted desc (firstn n l).
Proof.
  revert n. induction l as [|x l IH]; intros [|n] H; simpl; try constructor.
  - apply IH. inversion H; assumption.
  - inversion H as [|? ? _ Hx]; subst. rewrite Forall_forall in *.
    intros y Hy. apply Hx. eapply in_firstn_in; exact Hy.
Qed.

Lemma skipn_sorted n l : StronglySorted desc l -> StronglySorted desc (skipn n l).
Proof.
  revert l. induction n as [|n IH]; intros [|x l] H; simpl; try assumption.
  apply IH. inversion H; assumption.
Qed.

(** X7.  get_bookings returns rows of the table only, each passing every
    filter that was given; the rows come latest start first; no more than
    [limit] come back; and with no offset and a limit that the number of
    matching rows does not exceed, every matching row comes back. *)
Lemma get_bookings_in s skip limit user_id service_id status from_date to_date b :
  In b (get_bookings s skip limit user_id service_id status from_date to_date) ->
  In b (bookings s)
  /\ bookings_filter user_id service_id status from_date to_date b = true.
Proof.
  unfold get_bookings. intros H.
  apply in_firstn_in, in_skipn_in in H.
  apply (Permutation_in _ (sort_desc_perm _)) in H.
  apply filter_In in H. exact H.
Qed.

Theorem get_bookings_spec :
  forall (s : Store) (skip limit : nat) (user_id service_id : option string)
         (status : option BookingStatus) (from_date to_date : option Z),
    let flt := bookings_filter user_id service_id status from_date to_date in
    let r := get_bookings s skip limit user_id service_id status from_date to_date in
    (forall b, In b r -> In b (bookings s) /\ flt b = true)
    /\ StronglySorted desc r
    /\ (List.length r <= limit)%nat
    /\ ((List.length (filter flt (bookings s)) <= limit)%nat ->
        forall b, In b (bookings s) -> flt b = true ->
                  In b (get_bookings s 0 limit user_id service_id status from_date to_date)).
Proof.
  intros s skip limit user_id service_id status from_date to_date flt r.
  subst r. unfold get_bookings. fold flt. repeat split.
  - apply in_firstn_in, in_skipn_in in H.
    apply (Permutation_in _ (sort_desc_perm _)) in H.
    apply filter_In in H. tauto.
  - apply in_firstn_in, in_skipn_in in H.
    apply (Permutation_in _ (sort_desc_perm _)) in H.
    apply filter_In in H. tauto.
  - apply firstn_sorted, skipn_sorted, sort_desc_sorted.
  - apply firstn_le_length.
  - intros Hlen b Hin Hb. simpl skipn.
    rewrite firstn_all2.
    + apply (Permutation_in _ (Permutation_sym (sort_desc_perm _))).
      apply filter_In. split; assumption.
    + rewrite (Permutation_length (sort_desc_perm _)). exact Hlen.
Qed.

(** X8.  The listings of one user and of one service show nothing else:
    every row of get_user_bookings belongs to the user and every row of
    get_service_bookings to the service, when the id asked for is not the
    empty string. *)
Theorem user_and_service_listings :
  forall (s : Store) (id : string) (skip limit : nat) (b : Booking),
    id <> ""%string ->
    (In b (get_user_bookings s id skip limit) -> b_user_id b = id)
    /\ (In b (get_service_bookings s id skip limit) -> b_service_id b = id).
Proof.
  intros s id skip limit b Hid. apply String.eqb_neq in Hid.
  unfold get_user_bookings, get_service_bookings.
  split; intros H;
    apply get_bookings_in in H; destruct H as [_ H];
    unfold bookings_filter, str_filter in H; rewrite Hid in H;
    rewrite !andb_true_iff in H; apply String.eqb_eq; tauto.
Qed.

Lemma user_and_service_listings_witness :
  b_user_id {| b_id := "A"; b_user_id := "u1"; b_service_id := "S";
               b_status := pending; b_start_time := 36000;
               b_end_time := 39600; b_created_at := 0 |} = "u1"%string.
Proof.
  destruct (@user_and_service_listings (store owner_patch_world) "u1" 0 10
              {| b_id := "A"; b_user_id := "u1"; b_service_id := "S";
                 b_status := pending; b_start_time := 36000;
                 b_end_time := 39600; b_created_at := 0 |}) as [H _].
  - discriminate.
  - apply H. left. reflexivity.
Defined.

(** ** The request bodies *)


(** X10.  The body of a PATCH is checked only when it carries both times.
    With start_time and end_time both given, both with or both without a
    time zone, and end not after start, the request is answered 422 and
    nothing is stored.  With start_time alone, no comparison with the stored
    end is made anywhere: for the owner of a pending or confirmed booking,
    a new start at or after the stored end is written as it is when the
    conflict query selects no row (the commit and the re-read going
    through), leaving a booking whose end is not after its start. *)
Theorem patch_booking_validation :
  forall (w : World) (current_user : User) (booking_id : string),
    (forall st en sta,
        aware st = aware en -> ts en <= ts st ->
        patch_booking current_user booking_id
          {| bu_start_time := Value st; bu_end_time := Value en; bu_status := sta |} w
        = (Raise (HTTPException 422 "end_time must be after start_time"), w))
    /\ (forall st b,
          find (fun x => String.eqb (b_id x) booking_id) (bookings (store w)) = Some b ->
          u_id current_user = b_user_id b ->
          status_active (b_status b) = true ->
          b_end_time b <= ts st ->
          _has_time_conflict (store w) (b_service_id b) (Some (ts st))
            (Some (b_end_time b)) (Some booking_id) = Ok false ->
          commits_ok 2 w ->
          exists b',
            result_of (patch_booking current_user booking_id
                         {| bu_start_time := Value st; bu_end_time := Unset;
                            bu_status := Unset |}) w = Ok b'
            /\ b_start_time b' = ts st /\ b_end_time b' = b_end_time b
            /\ b_end_time b' <= b_start_time b'
            /\ In b' (bookings (store_after
                                  (patch_booking current_user booking_id
                                     {| bu_start_time := Value st; bu_end_time := Unset;
                                        bu_status := Unset |}) w))).
Proof.
  intros w current_user booking_id. split.
  - intros st en sta Ha Hle.
    unfold patch_booking, update_end_time_must_be_after_start_time, dt_le.
    cbn [bu_end_time bu_start_time]. rewrite Ha, Bool.eqb_reflx.
    apply Z.leb_le in Hle. rewrite Hle. reflexivity.
  - intros st b F Hown Hact Hle Hc Hok.
    pose proof F as Fin. apply find_some in Fin. destruct Fin as [Fin Fid].
    apply String.eqb_eq in Fid.
    exists (setattr b k_start_time (VTime st)).
    unfold patch_booking, update_end_time_must_be_after_start_time.
    cbn [bu_end_time bu_start_time].
    unfold update_booking. unfold_m. rewrite F. cbn -[_has_time_conflict].
    rewrite Hact, Hc. simpl.
    assert (Hauth : negb (String.eqb (u_role current_user) "admin")
             && negb (String.eqb
                        match (if String.eqb (u_role current_user) "admin"
                               then None else Some (u_id current_user)) with
                        | Some u => u
                        | None => "None"%string
                        end "")
             && negb (String.eqb (b_user_id b)
                        match (if String.eqb (u_role current_user) "admin"
                               then None else Some (u_id current_user)) with
                        | Some u => u
                        | None => "None"%string
                        end) = false).
    { destruct (String.eqb (u_role current_user) "admin"); [reflexivity|].
      rewrite Hown, String.eqb_refl. simpl. apply andb_false_r. }
    rewrite Hauth. rewrite !andb_false_r. simpl.
    unfold commits_ok in Hok.
    destruct (faults w) as [|[] [|[] ?]]; simpl in Hok; try discriminate; simpl;
      (split; [reflexivity|]); (split; [reflexivity|]); (split; [reflexivity|]);
      (split; [exact Hle|]);
      clear - Fin Fid; subst booking_id;
      induction (bookings (store w)) as [|x l IH]; simpl in *; try contradiction;
      (destruct (String.eqb (b_id x) (b_id b)) eqn:E;
       [left; reflexivity|
        right; destruct Fin as [->|Fin];
        [rewrite String.eqb_refl in E; discriminate|exact (IH Fin)]]).
Qed.

Lemma patch_booking_validation_witness :
  patch_booking alice "A"
    {| bu_start_time := Value (mkDatetime 5000 true);
       bu_end_time := Value (mkDatetime 4000 true); bu_status := Unset |}
    owner_patch_world
  = (Raise (HTTPException 422 "end_time must be after start_time"), owner_patch_world).
Proof.
  destruct (@patch_booking_validation owner_patch_world alice "A") as [H _].
  apply H.
  - reflexivity.
  - simpl. lia.
Defined.

(* ===================================================================== *)
(** * Further properties of the session engine *)
(* ===================================================================== *)

Lemma type_is_eq c ty : type_is c ty = true -> c_type c = Some ty.
Proof.
  unfold type_is. destruct (c_type c) as [t|]; [|discriminate].
  intros H. apply String.eqb_eq in H. congruence.
Qed.

Lemma verify_token_sound cfg now tok ty cd rd w u :
  result_of (verify_token cfg now tok ty cd rd) w = Ok u ->
  exists c sub j,
    tok = Jwt c (SECRET_KEY cfg)
    /\ c_sub c = Some sub /\ c_jti c = Some j /\ c_type c = Some ty
    /\ (forall e, c_exp c = Some e -> now <= e)
    /\ is_token_blacklisted now (store w) j = false
    /\ In u (users (store w)) /\ u_id u = sub /\ u_is_active u = true.
Proof.
  destruct tok as [raw|c k]; [vm_compute; discriminate|].
  intros H. apply verify_token_ok in H.
  destruct H as (Hk & He & Ht & sub & j & Hs & Hj & Hb & Hu).
  subst k. exists c, sub, j. repeat split; auto.
  - apply type_is_eq. exact Ht.
  - unfold active_user in Hu. apply find_some in Hu. tauto.
  - unfold active_user in Hu. apply find_some in Hu. destruct Hu as [_ Hu].
    apply andb_true_iff in Hu. destruct Hu as [Hu _]. apply String.eqb_eq. exact Hu.
  - unfold active_user in Hu. apply find_some in Hu. destruct Hu as [_ Hu].
    apply andb_true_iff in Hu. tauto.
Qed.

(** X11.  Authentication is sound.  Whenever get_current_user returns a
    user, the token is signed with the configured key, carries sub, jti and
    the type "access", is not past its exp, its jti has no unexpired entry
    in the ledger, and the user is a row of the users table with that sub
    as id and is_active set.  verify_refresh_token is as strict, for the
    type "refresh". *)
Theorem authentication_sound :
  forall (cfg : Settings) (now : Z) (tok : token) (w : World) (u : User),
    (result_of (get_current_user cfg now tok) w = Ok u ->
     exists c sub j,
       tok = Jwt c (SECRET_KEY cfg)
       /\ c_sub c = Some sub /\ c_jti c = Some j /\ c_type c = Some "access"%string
       /\ (forall e, c_exp c = Some e -> now <= e)
       /\ is_token_blacklisted now (store w) j = false
       /\ In u (users (store w)) /\ u_id u = sub /\ u_is_active u = true)
    /\ (result_of (verify_refresh_token cfg now tok) w = Ok u ->
        exists c sub j,
          tok = Jwt c (SECRET_KEY cfg)
          /\ c_sub c = Some sub /\ c_jti c = Some j /\ c_type c = Some "refresh"%string
          /\ (forall e, c_exp c = Some e -> now <= e)
          /\ is_token_blacklisted now (store w) j = false
          /\ In u (users (store w)) /\ u_id u = sub /\ u_is_active u = true).
Proof.
  intros cfg now tok w u. split; intros H; exact (verify_token_sound _ _ _ _ _ _ _ H).
Qed.

Lemma authentication_sound_witness :
  exists c sub j,
    fst (create_access_token example_settings 1000 "j1" "u1" (Some 1800))
    = Jwt c (SECRET_KEY example_settings)
    /\ c_sub c = Some sub /\ c_jti c = Some j /\ c_type c = Some "access"%string
    /\ (forall e, c_exp c = Some e -> 1500 <= e)
    /\ is_token_blacklisted 1500 (store (session_world [] [])) j = false
    /\ In alice (users (store (session_world [] [])))
    /\ u_id alice = sub /\ u_is_active alice = true.
Proof.
  destruct (@authentication_sound example_settings 1500
              (fst (create_access_token example_settings 1000 "j1" "u1" (Some 1800)))
              (session_world [] []) alice) as [H _].
  apply H. reflexivity.
Defined.

Lemma verify_token_wrong_type cfg now c ty cd rd w t :
  c_type c = Some t -> t <> ty ->
  verify_token cfg now (Jwt c (SECRET_KEY cfg)) ty cd rd w
  = (Raise (HTTPException 401 cd), w).
Proof.
  intros Ht Hne. apply String.eqb_neq in Hne.
  unfold verify_token, jwt_decode. unfold_m. rewrite String.eqb_refl.
  destruct (c_exp c) as [e|]; [destruct (e <? now)|]; simpl; try reflexivity;
    unfold type_is; rewrite Ht, Hne; destruct (c_sub c), (c_jti c); reflexivity.
Qed.

(** X12.  The two kinds of token are not interchangeable: an access token
    made by create_access_token is never accepted by verify_refresh_token,
    and a refresh token made by create_refresh_token never authenticates a
    request; each is refused with the 401 of an invalid token, at every
    time and on every store, which is left as it was. *)
Theorem token_types_are_separate :
  forall (cfg : Settings) (w : World) (now now' : Z) (jti sub : string)
         (expires_delta : option Z),
    verify_refresh_token cfg now'
      (fst (create_access_token cfg now jti sub expires_delta)) w
    = (Raise exn_invalid_refresh, w)
    /\ get_current_user cfg now'
         (fst (create_refresh_token cfg now jti sub expires_delta)) w
       = (Raise exn_credentials, w).
Proof.
  intros cfg w now now' jti sub delta.
  unfold verify_refresh_token, get_current_user, create_access_token,
    create_refresh_token, jwt_encode. cbn [fst].
  split; eapply verify_token_wrong_type; try reflexivity; discriminate.
Qed.

(** ** What a revocation touches *)

Lemma is_token_blacklisted_add now s r j :
  is_token_blacklisted now (add_blacklisted r s) j
  = is_token_blacklisted now s j
    || (String.eqb (tb_jti r) j && (now <? tb_expires_at r)).
Proof.
  unfold is_token_blacklisted, add_blacklisted. simpl.
  induction (token_blacklist s) as [|x l IH]; simpl.
  - destruct (String.eqb (tb_jti r) j && (now <? tb_expires_at r)); reflexivity.
  - destruct (String.eqb (tb_jti x) j && (now <? tb_expires_at x)); [reflexivity|exact IH].
Qed.

(** The store after blacklist_token is the store before, or the store
    before with one entry appended under the token's jti. *)
Lemma blacklist_token_cases tok e w :
  store_after (blacklist_token tok e) w = store w
  \/ exists c k j, tok = Jwt c k /\ c_jti c = Some j
       /\ store_after (blacklist_token tok e) w
          = add_blacklisted {| tb_jti := j; tb_token := tok; tb_expires_at := e |} (store w).
Proof.
  rewrite blacklist_token_store.
  destruct tok as [raw|c k]; [left; reflexivity|].
  destruct (c_jti c) as [j|] eqn:Hj; [|left; reflexivity].
  destruct (String.eqb j ""); [left; reflexivity|].
  destruct (ledger_row j _); [left; reflexivity|].
  destruct (faults w) as [|[] ?]; try (left; reflexivity);
    right; exists c, k, j; auto.
Qed.

(** The revocation check of a jti other than the token's own answers after
    [blacklist_token] as before. *)
Lemma blacklist_token_other_jti tok e w now j :
  (forall c k, tok = Jwt c k -> c_jti c <> Some j) ->
  is_token_blacklisted now (store_after (blacklist_token tok e) w) j
  = is_token_blacklisted now (store w) j.
Proof.
  intros Hne.
  destruct (blacklist_token_cases tok e w) as [E|(c & k & j0 & Ht & Hj & E)]; rewrite E.
  { reflexivity. }
  rewrite is_token_blacklisted_add. simpl.
  replace (String.eqb j0 j) with false; [apply orb_false_r|].
  symmetry. apply String.eqb_neq. intros ->. exact (Hne c k Ht Hj).
Qed.

(** X13.  A revocation touches one jti only and never lifts a revocation:
    after blacklist_token, every jti that was revoked is still revoked, the
    revocation check of every jti other than the token's own answers as
    before, and users, services and bookings are as before. *)
Theorem blacklist_token_frame :
  forall (tok : token) (e : Z) (w : World) (now : Z) (j : string),
    let st' := store_after (blacklist_token tok e) w in
    (is_token_blacklisted now (store w) j = true -> is_token_blacklisted now st' j = true)
    /\ ((forall c k, tok = Jwt c k -> c_jti c <> Some j) ->
        is_token_blacklisted now st' j = is_token_blacklisted now (store w) j)
    /\ users st' = users (store w) /\ services st' = services (store w)
    /\ bookings st' = bookings (store w).
Proof.
  intros tok e w now j st'. subst st'.
  destruct (blacklist_token_cases tok e w) as [E|(c & k & j0 & Ht & Hj & E)]; rewrite E.
  { repeat split; auto. }
  split; [|split].
  - intros H. rewrite is_token_blacklisted_add, H. reflexivity.
  - intros Hne. rewrite is_token_blacklisted_add. simpl.
    replace (String.eqb j0 j) with false; [apply orb_false_r|].
    symmetry. apply String.eqb_neq. intros ->. exact (Hne c k Ht Hj).
  - simpl. auto.
Qed.

Lemma blacklist_token_frame_witness :
  is_token_blacklisted 600
    (store_after (blacklist_token (Garbage "zzz") 7) ledger_world) "live" = true.
Proof.
  destruct (@blacklist_token_frame (Garbage "zzz") 7 ledger_world 600 "live") as [H _].
  apply H. reflexivity.
Defined.

(** Verification reads the users table and the revocation check of the
    token's own jti, nothing else of the store. *)
Lemma verify_token_same cfg now tok ty cd rd w w' :
  users (store w') = users (store w) ->
  (forall c k j, tok = Jwt c k -> c_jti c = Some j ->
     is_token_blacklisted now (store w') j = is_token_blacklisted now (store w) j) ->
  result_of (verify_token cfg now tok ty cd rd) w'
  = result_of (verify_token cfg now tok ty cd rd) w.
Proof.
  intros Hu Hb. destruct tok as [raw|c k]; [reflexivity|].
  unfold verify_token, jwt_decode. unfold_m.
  destruct (String.eqb k (SECRET_KEY cfg)); [|reflexivity].
  destruct (c_exp c) as [e|]; [destruct (e <? now)|]; simpl; try reflexivity;
    (destruct (c_sub c) as [sub|]; [|reflexivity]);
    (destruct (c_jti c) as [j|] eqn:Hj; [|reflexivity]);
    (destruct (type_is c ty); simpl; [|reflexivity]);
    rewrite (Hb c k j eq_refl Hj);
    destruct (is_token_blacklisted now (store w) j); simpl; try reflexivity;
    rewrite Hu; destruct (find _ _); reflexivity.
Qed.

(** The store after a rotation is the store before, or the store after one
    blacklist_token of the presented token. *)
Lemma refresh_access_token_store cfg now ja jr tok w :
  store_after (refresh_access_token cfg now ja jr tok) w = store w
  \/ exists e, store_after (refresh_access_token cfg now ja jr tok) w
               = store_after (blacklist_token tok e) w.
Proof.
  unfold store_after at 1 2.
  destruct (result_of (verify_refresh_token cfg now tok) w) as [user|x] eqn:Hv.
  - destruct tok as [raw|c k]; [vm_compute in Hv; discriminate|].
    destruct (exp_of c) as [e|x] eqn:He.
    + right. exists e. destruct (exp_of_ok c He) as [He' Hr].
      rewrite (@refresh_access_token_verified cfg now ja jr c k w user e Hv He' Hr).
      reflexivity.
    + left. rewrite (@refresh_access_token_bad_exp cfg now ja jr c k w user x Hv He).
      reflexivity.
  - left. rewrite (@refresh_access_token_rejected cfg now ja jr tok w x Hv). reflexivity.
Qed.

(** X14.  A rotation revokes nothing but the refresh token it is given:
    every token with another jti that authenticated a request, or verified
    as a refresh token, before the rotation does so after it, for the same
    user; in particular the access token issued together with the rotated
    refresh token stays valid. *)
Theorem rotation_spares_other_tokens :
  forall (cfg : Settings) (w : World) (now now' : Z) (ja jr : string)
         (r tok : token) (u : User),
    (forall c k c' k' j, r = Jwt c k -> tok = Jwt c' k' ->
                         c_jti c = Some j -> c_jti c' <> Some j) ->
    let w1 := snd (refresh_access_token cfg now ja jr r w) in
    (result_of (get_current_user cfg now' tok) w = Ok u ->
     result_of (get_current_user cfg now' tok) w1 = Ok u)
    /\ (result_of (verify_refresh_token cfg now' tok) w = Ok u ->
        result_of (verify_refresh_token cfg now' tok) w1 = Ok u).
Proof.
  intros cfg w now now' ja jr r tok u Hne w1.
  assert (Hs : users (store w1) = users (store w)
               /\ forall c k j, tok = Jwt c k -> c_jti c = Some j ->
                    is_token_blacklisted now' (store w1) j
                    = is_token_blacklisted now' (store w) j).
  { subst w1. fold (store_after (refresh_access_token cfg now ja jr r) w).
    destruct (refresh_access_token_store cfg now ja jr r w) as [E|[e E]]; rewrite E.
    - split; [reflexivity|]. intros; reflexivity.
    - split; [apply blacklist_token_users|].
      intros c' k' j Ht Hj.
      apply blacklist_token_other_jti. intros c k Hr Hjr. inversion Hjr as [Hjr'].
      apply (Hne c k c' k' j Hr Ht); congruence. }
  destruct Hs as [Hu Hb].
  unfold get_current_user, verify_refresh_token.
  split; intros H; rewrite (@verify_token_same cfg now' tok _ _ _ w w1 Hu Hb); exact H.
Qed.

Lemma rotation_spares_other_tokens_witness :
  result_of (get_current_user example_settings 1500
               (fst (create_access_token example_settings 1000 "j1" "u1" (Some 1800))))
    (snd (refresh_access_token example_settings 1200 "a2" "r2" alice_refresh
            (session_world [] [])))
  = Ok alice.
Proof.
  destruct (@rotation_spares_other_tokens example_settings (session_world [] []) 1200 1500
              "a2" "r2" alice_refresh
              (fst (create_access_token example_settings 1000 "j1" "u1" (Some 1800)))
              alice) as [H _].
  - intros c k c' k' j Hr Ht Hj.
    inversion Hr; subst. inversion Ht; subst. simpl in *.
    inversion Hj; subst. discriminate.
  - apply H. reflexivity.
Defined.

(** ** What a rotation and a login hand out *)

Lemma active_user_of_verified cfg now c k ty cd rd w user :
  result_of (verify_token cfg now (Jwt c k) ty cd rd) w = Ok user ->
  active_user (store w) (u_id user) = Some user.
Proof.
  intros H. apply verify_token_ok in H.
  destruct H as (_ & _ & _ & sub & j & _ & _ & _ & Hu).
  pose proof Hu as Hu'. unfold active_user in Hu'. apply find_some in Hu'.
  destruct Hu' as [_ Hid]. apply andb_true_iff in Hid. destruct Hid as [Hid _].
  apply String.eqb_eq in Hid. rewrite Hid. exact Hu.
Qed.

(** X15.  The pair a rotation returns is usable: when the presented
    refresh token verifies and carries an exp that a datetime can hold (a
    second of the years 1 to 9999), and the two jtis drawn for
    the new pair are not in the ledger and differ from the presented
    token's jti, the rotation returns the pair made for the same user, its
    access token authenticates that user during the next 30 minutes and
    its refresh token verifies for that user, on the store the rotation
    leaves. *)
Theorem rotation_issues_usable_pair :
  forall (cfg : Settings) (w : World) (now now' : Z) (ja jr : string)
         (c : token_claims) (k : string) (user : User) (j : string) (e : Z),
    result_of (verify_refresh_token cfg now (Jwt c k)) w = Ok user ->
    c_jti c = Some j -> c_exp c = Some e ->
    MIN_TIMESTAMP <= e <= MAX_TIMESTAMP ->
    ja <> j -> jr <> j ->
    ledger_row ja (token_blacklist (store w)) = None ->
    ledger_row jr (token_blacklist (store w)) = None ->
    now' < now + 1800 ->
    let a := fst (create_access_token cfg now ja (u_id user) (Some 1800)) in
    let r' := fst (create_refresh_token cfg now jr (u_id user) (Some 604800)) in
    let w1 := snd (refresh_access_token cfg now ja jr (Jwt c k) w) in
    result_of (refresh_access_token cfg now ja jr (Jwt c k)) w = Ok (a, r')
    /\ result_of (get_current_user cfg now' a) w1 = Ok user
    /\ result_of (verify_refresh_token cfg now' r') w1 = Ok user.
Proof.
  intros cfg w now now' ja jr c k user j e Hv Hj He Hr Hja Hjr Hfa Hfr Hlt a r' w1.
  pose proof (active_user_of_verified _ _ _ _ _ _ _ _ Hv) as Hu.
  subst w1. unfold result_of at 1.
  rewrite (@refresh_access_token_verified cfg now ja jr c k w user e Hv He Hr).
  cbn [fst snd]. split; [reflexivity|].
  assert (Hsame : forall j', j' <> j ->
            is_token_blacklisted now' (store (snd (blacklist_token (Jwt c k) e w))) j'
            = is_token_blacklisted now' (store w) j').
  { intros j' Hne.
    apply (@blacklist_token_other_jti (Jwt c k) e w now' j').
    intros c0 k0 Ht. inversion Ht; subst. congruence. }
  pose proof (blacklist_token_users (Jwt c k) e w) as Husers.
  unfold store_after in Husers.
  split.
  - unfold get_current_user.
    rewrite (@verify_token_same cfg now' a _ _ _ w _ Husers).
    + unfold result_of, a, create_access_token, jwt_encode. cbn [fst].
      erewrite verify_token_signed; try reflexivity; [|simpl; lia].
      rewrite (is_token_blacklisted_none _ _ _ Hfa), Hu. reflexivity.
    + intros c0 k0 j0 Ht Hj0. unfold a, create_access_token, jwt_encode in Ht.
      cbn [fst] in Ht. inversion Ht; subst c0 k0. simpl in Hj0.
      inversion Hj0; subst j0. apply Hsame. exact Hja.
  - unfold verify_refresh_token.
    rewrite (@verify_token_same cfg now' r' _ _ _ w _ Husers).
    + unfold result_of, r', create_refresh_token, jwt_encode. cbn [fst].
      erewrite verify_token_signed; try reflexivity; [|simpl; lia].
      rewrite (is_token_blacklisted_none _ _ _ Hfr), Hu. reflexivity.
    + intros c0 k0 j0 Ht Hj0. unfold r', create_refresh_token, jwt_encode in Ht.
      cbn [fst] in Ht. inversion Ht; subst c0 k0. simpl in Hj0.
      inversion Hj0; subst j0. apply Hsame. exact Hjr.
Qed.

Lemma rotation_issues_usable_pair_witness :
  result_of (get_current_user example_settings 2500
               (fst (create_access_token example_settings 2000 "a2" "u1" (Some 1800))))
    (snd (refresh_access_token example_settings 2000 "a2" "r2" alice_refresh
            (session_world [] [])))
  = Ok alice.
Proof.
  destruct (@rotation_issues_usable_pair example_settings (session_world [] []) 2000 2500
              "a2" "r2"
              {| c_sub := Some "u1"%string; c_jti := Some "r1"%string;
                 c_exp := Some 605800; c_iat := Some 1000;
                 c_type := Some "refresh"%string |}
              "secret" alice "r1" 605800) as (_ & H & _);
    [reflexivity|reflexivity|reflexivity|unfold MIN_TIMESTAMP, MAX_TIMESTAMP; lia
    |discriminate|discriminate|reflexivity|reflexivity|reflexivity|exact H].
Defined.

(** ** The users table *)

Lemma write_user_ids u' l : map u_id (write_user u' l) = map u_id l.
Proof.
  induction l as [|x l IH]; simpl; [reflexivity|].
  destruct (String.eqb (u_id x) (u_id u')) eqn:E; simpl.
  - apply String.eqb_eq in E. rewrite E. reflexivity.
  - rewrite IH. reflexivity.
Qed.

Lemma write_user_In u u' l :
  In u l -> u_id u = u_id u' -> In u' (write_user u' l).
Proof.
  induction l as [|x l IH]; simpl; [tauto|].
  intros [->|Hin] Hid.
  - rewrite Hid, String.eqb_refl. left. reflexivity.
  - destruct (String.eqb (u_id x) (u_id u')); [left; reflexivity|].
    right. apply IH; assumption.
Qed.

(** With unique ids, the only row of the written table under the id of the
    written row is the written row. *)
Lemma write_user_unique u' l x :
  NoDup (map u_id l) -> In x (write_user u' l) -> u_id x = u_id u' -> x = u'.
Proof.
  induction l as [|y l IH]; simpl; intros Hnd Hin Hid; [contradiction|].
  inversion Hnd as [|? ? Hnotin Hnd']; subst.
  destruct (String.eqb (u_id y) (u_id u')) eqn:E.
  - apply String.eqb_eq in E. destruct Hin as [H|H]; [auto|].
    exfalso. apply Hnotin. rewrite E, <- Hid. apply in_map. exact H.
  - apply String.eqb_neq in E. destruct Hin as [H|H]; [subst; contradiction|].
    apply IH; assumption.
Qed.

Lemma active_user_unique l u :
  NoDup (map u_id l) -> In u l -> u_is_active u = true ->
  find (fun v => String.eqb (u_id v) (u_id u) && u_is_active v) l = Some u.
Proof.
  induction l as [|y l IH]; simpl; intros Hnd Hin Ha; [contradiction|].
  inversion Hnd as [|? ? Hnotin Hnd']; subst.
  destruct Hin as [->|Hin].
  - rewrite String.eqb_refl, Ha. reflexivity.
  - destruct (String.eqb (u_id y) (u_id u)) eqn:E.
    + apply String.eqb_eq in E. exfalso. apply Hnotin. rewrite E.
      apply in_map. exact Hin.
    + simpl. apply IH; assumption.
Qed.

Lemma with_status_same u : u_status u = "active"%string -> with_status "active" u = u.
Proof. destruct u; simpl; intros ->; reflexivity. Qed.

(** X16.  login_user.  An unknown email, an account whose is_active is off
    and a password that does not match are all refused with the same 401,
    the store untouched.  Otherwise (ids unique, the commit of a
    reactivation and the re-read after it going through, the two jtis not
    in the ledger) the login
    returns the user with status "active", and on the store it leaves the
    access token passes get_current_active_user for that user during the
    next 30 minutes and the refresh token verifies for that user. *)
Theorem login_user_spec :
  forall (cfg : Settings) (password_matches : User -> string -> bool)
         (w : World) (now now' : Z) (ja jr email password : string),
    let found := find (fun u => String.eqb (u_email u) email && u_is_active u)
                      (users (store w)) in
    let m := login_user cfg password_matches now ja jr email password in
    ((found = None \/ exists u, found = Some u /\ password_matches u password = false) ->
     m w = (Raise exn_invalid_credentials, w))
    /\ (forall u,
          found = Some u -> password_matches u password = true ->
          NoDup (map u_id (users (store w))) ->
          commits_ok 2 w ->
          ledger_row ja (token_blacklist (store w)) = None ->
          ledger_row jr (token_blacklist (store w)) = None ->
          now' < now + 1800 ->
          let user := with_status "active" u in
          let a := fst (create_access_token cfg now ja (u_id u) (Some 1800)) in
          let r := fst (create_refresh_token cfg now jr (u_id u) (Some 604800)) in
          result_of m w = Ok (a, r, user)
          /\ result_of (get_current_active_user cfg now' a) (snd (m w)) = Ok user
          /\ result_of (verify_refresh_token cfg now' r) (snd (m w)) = Ok user
          /\ token_blacklist (store_after m w) = token_blacklist (store w)).
Proof.
  intros cfg pm w now now' ja jr email password found m. subst m. split.
  - intros H. unfold login_user, authenticate_user. unfold_m. fold found.
    destruct H as [->|[u [-> Hp]]]; [reflexivity|]. rewrite Hp. reflexivity.
  - intros u Hf Hp Hnd Hok Hfa Hfr Hlt user a r.
    pose proof Hf as Hf'. unfold found in Hf'. apply find_some in Hf'.
    destruct Hf' as [Hin Hact]. apply andb_true_iff in Hact. destruct Hact as [_ Hact].
    assert (E : exists w1,
               login_user cfg pm now ja jr email password w = (Ok (a, r, user), w1)
               /\ token_blacklist (store w1) = token_blacklist (store w)
               /\ active_user (store w1) (u_id u) = Some user).
    { unfold login_user, authenticate_user. unfold_m. fold found.
      rewrite Hf, Hp, Hact. simpl.
      destruct (String.eqb (u_status u) "active") eqn:Hs; simpl.
      - apply String.eqb_eq in Hs. exists w. unfold user.
        rewrite (with_status_same _ Hs). repeat split.
        apply active_user_unique; assumption.
      - unfold commits_ok in Hok.
        destruct (faults w) as [|[] [|[] fs]]; simpl in Hok; try discriminate;
          eexists; (split; [reflexivity|split; [reflexivity|]]);
          unfold active_user; simpl;
          change (u_id u) with (u_id (with_status "active" u));
          (apply active_user_unique;
           [rewrite write_user_ids; exact Hnd
           |apply (@write_user_In u); [exact Hin|reflexivity]
           |exact Hact]). }
    destruct E as (w1 & E & Hl & Hu).
    unfold result_of, store_after. rewrite E. cbn [fst snd].
    split; [reflexivity|].
    assert (Hfa1 : ledger_row ja (token_blacklist (store w1)) = None) by (rewrite Hl; exact Hfa).
    assert (Hfr1 : ledger_row jr (token_blacklist (store w1)) = None) by (rewrite Hl; exact Hfr).
    split; [|split; [|exact Hl]].
    + unfold get_current_active_user, get_current_user, bind.
      unfold a, create_access_token, jwt_encode. cbn [fst].
      erewrite verify_token_signed; try reflexivity; [|simpl; lia].
      rewrite (is_token_blacklisted_none _ _ _ Hfa1), Hu. reflexivity.
    + unfold verify_refresh_token.
      unfold r, create_refresh_token, jwt_encode. cbn [fst].
      erewrite verify_token_signed; try reflexivity; [|simpl; lia].
      rewrite (is_token_blacklisted_none _ _ _ Hfr1), Hu. reflexivity.
Qed.

Lemma login_user_spec_witness :
  login_user example_settings (fun _ p => String.eqb p "correct horse") 1000 "j1" "r1"
    "nobody@example.com" "correct horse" (session_world [] [])
  = (Raise exn_invalid_credentials, session_world [] []).
Proof.
  destruct (@login_user_spec example_settings (fun _ p => String.eqb p "correct horse")
              (session_world [] []) 1000 1000 "j1" "r1" "nobody@example.com"
              "correct horse") as [H _].
  apply H. left. reflexivity.
Defined.

(** ** The gates behind the routes *)

Lemma get_current_active_user_ok cfg now tok w u :
  result_of (get_current_active_user cfg now tok) w = Ok u ->
  result_of (get_current_user cfg now tok) w = Ok u /\ u_status u = "active"%string.
Proof.
  unfold get_current_active_user, result_of, bind.
  destruct (get_current_user cfg now tok w) as [[x|x] w']; simpl; [|discriminate].
  destruct (String.eqb (u_status x) "active") eqn:E; simpl; [|discriminate].
  intros H. inversion H; subst. apply String.eqb_eq in E. auto.
Qed.

Lemma get_current_admin_user_ok cfg now tok w u :
  result_of (get_current_admin_user cfg now tok) w = Ok u ->
  result_of (get_current_active_user cfg now tok) w = Ok u /\ u_role u = "admin"%string.
Proof.
  unfold get_current_admin_user, result_of, bind.
  destruct (get_current_active_user cfg now tok w) as [[x|x] w']; simpl; [|discriminate].
  destruct (String.eqb (u_role x) "admin") eqn:E; simpl; [|discriminate].
  intros H. inversion H; subst. apply String.eqb_eq in E. auto.
Qed.

(** X17.  The admin gate lets admins through only: whenever
    get_current_admin_user returns a user, that user is a row of the users
    table with role "admin", status "active" and is_active set, named by
    the sub of an access token that is signed with the configured key, not
    past its exp and not revoked. *)
Theorem admin_gate_sound :
  forall (cfg : Settings) (now : Z) (tok : token) (w : World) (u : User),
    result_of (get_current_admin_user cfg now tok) w = Ok u ->
    u_role u = "admin"%string /\ u_status u = "active"%string
    /\ u_is_active u = true /\ In u (users (store w))
    /\ exists c j,
         tok = Jwt c (SECRET_KEY cfg) /\ c_sub c = Some (u_id u)
         /\ c_jti c = Some j /\ c_type c = Some "access"%string
         /\ (forall e, c_exp c = Some e -> now <= e)
         /\ is_token_blacklisted now (store w) j = false.
Proof.
  intros cfg now tok w u H.
  apply get_current_admin_user_ok in H. destruct H as [H Hrole].
  apply get_current_active_user_ok in H. destruct H as [H Hst].
  apply verify_token_sound in H.
  destruct H as (c & sub & j & Ht & Hs & Hj & Hty & He & Hb & Hin & Hid & Ha).
  repeat split; auto. exists c, j. subst sub. repeat split; auto.
Qed.

Lemma admin_gate_sound_witness :
  let root := {| u_id := "u0"; u_email := "root@example.com"; u_status := "active";
                 u_role := "admin"; u_is_active := true |} in
  let w := {| store := {| users := [root]; services := []; bookings := [];
                          token_blacklist := [] |}; faults := [] |} in
  u_role root = "admin"%string.
Proof.
  cbv zeta.
  match goal with
  | |- u_role ?root = _ =>
      destruct (@admin_gate_sound example_settings 1500
                  (fst (create_access_token example_settings 1000 "j0" "u0" (Some 1800)))
                  {| store := {| users := [root]; services := []; bookings := [];
                                 token_blacklist := [] |}; faults := [] |} root)
        as [H _]
  end.
  - reflexivity.
  - exact H.
Defined.

Lemma logout_user_users user a ae rt re w :
  commits_ok 1 w ->
  users (store_after (logout_user user a ae rt re) w)
  = write_user (with_status "inactive" user) (users (store w)).
Proof.
  intros Hok.
  destruct (@commit_run (set_users (write_user (with_status "inactive" user)
                                      (users (store w))) (store w)) w 0 Hok)
    as [R1 _].
  unfold store_after, logout_user, try_except, bind, get_store. rewrite R1.
  unfold refresh. cbn -[blacklist_token token_truthy write_user].
  destruct (tl (faults w)) as [|[] fs];
    cbn -[blacklist_token token_truthy write_user]; try reflexivity;
    (match goal with
     | |- context [blacklist_token a ae ?x] =>
         destruct (blacklist_token_run a ae x) as (w2 & R2 & S2 & _); rewrite R2;
         assert (H2 : users (store w2) = users (store x))
           by (rewrite S2; apply blacklist_token_users)
     end);
    (destruct rt as [t|]; [destruct re as [x|]|]; try destruct (token_truthy t);
     unfold ret; simpl; try (rewrite H2; reflexivity));
    destruct (blacklist_token_run t x w2) as (w3 & R3 & S3 & _); rewrite R3; simpl;
    rewrite S3, blacklist_token_users, H2; reflexivity.
Qed.

(** X18.  A logout locks the user out until the next login: with ids
    unique and the status update committed, no token at all, whether
    revoked or not, passes get_current_active_user for the logged-out user
    on the store the logout leaves. *)
Theorem logout_locks_out :
  forall (cfg : Settings) (w : World) (user : User) (a : token) (ae : Z)
         (rt : option token) (re : option Z) (now' : Z) (tok : token) (u : User),
    NoDup (map u_id (users (store w))) ->
    commits_ok 1 w ->
    result_of (get_current_active_user cfg now' tok)
      (snd (logout_user user a ae rt re w)) = Ok u ->
    u_id u <> u_id user.
Proof.
  intros cfg w user a ae rt re now' tok u Hnd Hok H Heq.
  apply get_current_active_user_ok in H. destruct H as [H Hst].
  apply verify_token_sound in H.
  destruct H as (c & sub & j & _ & _ & _ & _ & _ & _ & Hin & _ & _).
  fold (store_after (logout_user user a ae rt re) w) in Hin.
  rewrite (logout_user_users user a ae rt re Hok) in Hin.
  pose proof (@write_user_unique _ _ _ Hnd Hin Heq) as Hx.
  subst u. simpl in Hst. discriminate.
Qed.

Lemma logout_locks_out_witness : u_id bob <> u_id alice.
Proof.
  apply (@logout_locks_out example_settings two_users_world alice
           (fst (create_access_token example_settings 1000 "j1" "u1" (Some 1800)))
           2800 None None 1500
           (fst (create_access_token example_settings 1000 "j2" "u2" (Some 1800)))
           bob).
  - simpl. constructor; [simpl; intuition discriminate|].
    constructor; [simpl; tauto|constructor].
  - reflexivity.
  - reflexivity.
Defined.

(** X19.  A soft-deleted user cannot authenticate: after delete_user
    (ids unique, the commit and the re-read going through) no token
    authenticates a request, and no refresh token verifies, for the deleted
    id; the call returns the row with is_active off, and an unknown id is
    answered 404 with the store untouched. *)
Theorem delete_user_locks_out :
  forall (cfg : Settings) (w : World) (user_id : string),
    (find (fun u => String.eqb (u_id u) user_id) (users (store w)) = None ->
     delete_user user_id w = (Raise exn_user_not_found, w))
    /\ (forall db_user,
          find (fun u => String.eqb (u_id u) user_id) (users (store w)) = Some db_user ->
          NoDup (map u_id (users (store w))) ->
          commits_ok 2 w ->
          let w1 := snd (delete_user user_id w) in
          result_of (delete_user user_id) w = Ok (with_is_active false db_user)
          /\ forall now tok u,
               (result_of (get_current_user cfg now tok) w1 = Ok u -> u_id u <> user_id)
               /\ (result_of (verify_refresh_token cfg now tok) w1 = Ok u ->
                   u_id u <> user_id)).
Proof.
  intros cfg w user_id. split.
  - intros F. unfold delete_user. unfold_m. rewrite F. reflexivity.
  - intros db_user F Hnd Hok w1.
    pose proof F as Fid. apply find_some in Fid. destruct Fid as [_ Fid].
    apply String.eqb_eq in Fid.
    assert (E : delete_user user_id w
                = (Ok (with_is_active false db_user),
                   {| store := set_users (write_user (with_is_active false db_user)
                                            (users (store w))) (store w);
                      faults := tl (tl (faults w)) |})).
    { unfold delete_user. unfold_m. rewrite F. unfold commits_ok in Hok.
      destruct (faults w) as [|[] [|[] ?]]; simpl in Hok; try discriminate;
        reflexivity. }
    subst w1. unfold result_of at 1. rewrite E. cbn [fst snd].
    split; [reflexivity|].
    intros now tok u. split; intros H Heq; apply verify_token_sound in H;
      destruct H as (c & sub & j & _ & _ & _ & _ & _ & _ & Hin & _ & Ha);
      simpl in Hin;
      assert (Hid : u_id u = u_id (with_is_active false db_user))
        by (simpl; congruence);
      pose proof (@write_user_unique _ _ _ Hnd Hin Hid) as Hx;
      subst u; simpl in Ha; discriminate.
Qed.

Lemma delete_user_locks_out_witness :
  result_of (delete_user "u1") (session_world [] []) = Ok (with_is_active false alice).
Proof.
  destruct (@delete_user_locks_out example_settings (session_world [] []) "u1") as [_ H].
  destruct (H alice) as [R _].
  - reflexivity.
  - simpl. constructor; [simpl; tauto|constructor].
  - reflexivity.
  - exact R.
Defined.

(** ** Purging twice *)

Lemma filter_split_length {A} (f : A -> bool) (l : list A) :
  (List.length (filter f l) + List.length (filter (fun x => negb (f x)) l)
   = List.length l)%nat.
Proof.
  induction l as [|x l IH]; simpl; [reflexivity|].
  destruct (f x); simpl; lia.
Qed.

Lemma filter_idem {A} (f : A -> bool) (l : list A) : filter f (filter f l) = filter f l.
Proof.
  induction l as [|x l IH]; simpl; [reflexivity|].
  destruct (f x) eqn:E; simpl; [rewrite E, IH|]; auto.
Qed.

Lemma filter_none {A} (f : A -> bool) (l : list A) :
  filter f (filter (fun x => negb (f x)) l) = [].
Proof.
  induction l as [|x l IH]; simpl; [reflexivity|].
  destruct (f x) eqn:E; simpl; [|rewrite E]; auto.
Qed.

(** X20.  After a purge that was committed, every entry left in the ledger
    expires after the purge time, the entries removed and the entries left
    add up to the ledger before, and a second purge at that time removes
    nothing: it returns 0 and leaves the store as it is. *)
Theorem cleanup_expired_tokens_twice :
  forall (w : World) (now : Z) (fs : list bool),
    commits_ok 1 w ->
    let st1 := store_after (cleanup_expired_tokens now) w in
    (forall r, In r (token_blacklist st1) -> now < tb_expires_at r)
    /\ (exists n, result_of (cleanup_expired_tokens now) w = Ok n
                  /\ n + Z.of_nat (List.length (token_blacklist st1))
                     = Z.of_nat (List.length (token_blacklist (store w))))
    /\ result_of (cleanup_expired_tokens now) (mkWorld st1 fs) = Ok 0
    /\ store_after (cleanup_expired_tokens now) (mkWorld st1 fs) = st1.
Proof.
  intros w now fs Hok st1.
  assert (E : st1 = set_token_blacklist
                      (filter (fun r => negb (tb_expires_at r <=? now))
                              (token_blacklist (store w))) (store w)).
  { subst st1. rewrite cleanup_store. unfold commits_ok in Hok.
    destruct (faults w) as [|[] ?]; simpl in Hok; try discriminate; reflexivity. }
  split; [|split; [|split]].
  - rewrite E. simpl. intros r Hr. apply filter_In in Hr. destruct Hr as [_ Hr].
    apply negb_true_iff, Z.leb_gt in Hr. exact Hr.
  - exists (Z.of_nat (List.length (filter (fun r => tb_expires_at r <=? now)
                                     (token_blacklist (store w))))).
    split.
    + unfold cleanup_expired_tokens. unfold_m. simpl. unfold commits_ok in Hok.
      destruct (faults w) as [|[] ?]; simpl in Hok; try discriminate; reflexivity.
    + rewrite E. simpl. rewrite <- Nat2Z.inj_add. f_equal.
      apply (filter_split_length (fun r => tb_expires_at r <=? now)).
  - unfold cleanup_expired_tokens. unfold_m. simpl. rewrite E. simpl.
    rewrite (filter_none (fun r => tb_expires_at r <=? now)).
    destruct fs as [|[] ?]; reflexivity.
  - rewrite cleanup_store. simpl. rewrite E. simpl.
    rewrite (filter_idem (fun r => negb (tb_expires_at r <=? now))).
    destruct fs as [|[] ?]; reflexivity.
Qed.

Lemma cleanup_expired_tokens_twice_witness :
  result_of (cleanup_expired_tokens 500)
    (mkWorld (store_after (cleanup_expired_tokens 500) ledger_world) []) = Ok 0.
Proof.
  destruct (@cleanup_expired_tokens_twice ledger_world 500 []) as (_ & _ & H & _).
  - reflexivity.
  - exact H.
Defined.

(** ** Logging out through the route *)

Lemma ledger_row_app_other j l r :
  ledger_row j l = None -> tb_jti r <> j -> ledger_row j (l ++ [r]) = None.
Proof.
  unfold ledger_row. intros Hl Hne. apply String.eqb_neq in Hne.
  induction l as [|x l IH]; simpl in *.
  - rewrite Hne. reflexivity.
  - destruct (String.eqb (tb_jti x) j); [discriminate|apply IH; exact Hl].
Qed.

Lemma logout_user_both user ca ka ja ea cr kr jr er w :
  c_jti ca = Some ja -> ja <> ""%string ->
  c_jti cr = Some jr -> jr <> ""%string -> ja <> jr ->
  ledger_row ja (token_blacklist (store w)) = None ->
  ledger_row jr (token_blacklist (store w)) = None ->
  commits_ok 4 w ->
  exists w1,
    logout_user user (Jwt ca ka) ea (Some (Jwt cr kr)) (Some er) w
    = (Ok "Successfully logged out"%string, w1)
    /\ token_blacklist (store w1)
       = token_blacklist (store w)
         ++ [ {| tb_jti := ja; tb_token := Jwt ca ka; tb_expires_at := ea |};
              {| tb_jti := jr; tb_token := Jwt cr kr; tb_expires_at := er |} ]
    /\ users (store w1) = write_user (with_status "inactive" user) (users (store w)).
Proof.
  intros Hja Hnea Hjr Hner Hne Hfa Hfr Hok.
  destruct (@commit_run (set_users (write_user (with_status "inactive" user)
                                      (users (store w))) (store w)) w 3 Hok)
    as [R1 Hok1].
  destruct (refresh_run Hok1) as [R2 Hok2].
  match type of Hok2 with
  | commits_ok _ ?w2 =>
      destruct (@blacklist_token_fresh ca ka ja ea w2 1 Hja Hnea Hfa Hok2)
        as (w3 & R3 & S3 & Hok3)
  end.
  destruct (@blacklist_token_fresh cr kr jr er w3 0 Hjr Hner) as (w4 & R4 & S4 & _);
    [rewrite S3; simpl; apply ledger_row_app_other; [exact Hfr|exact Hne]
    |exact Hok3|].
  unfold logout_user, try_except, bind, get_store. rewrite R1, R2, R3.
  change (token_truthy (Jwt cr kr)) with true. cbv iota. rewrite R4. unfold ret.
  exists w4. split; [reflexivity|].
  rewrite S4, S3. simpl. rewrite <- app_assoc. split; reflexivity.
Qed.

Lemma get_current_user_run cfg now tok w u :
  result_of (get_current_user cfg now tok) w = Ok u ->
  get_current_user cfg now tok w = (Ok u, w).
Proof.
  intros H. unfold get_current_user, result_of in *.
  pose proof (verify_token_world cfg now tok "access" "Could not validate credentials"
                "Token has been revoked" w) as Hw.
  destruct (verify_token cfg now tok "access" _ _ w) as [r w']. simpl in *.
  subst. reflexivity.
Qed.

(** X21.  POST /auth/logout revokes both tokens by their jti and their own
    exp, and reads the refresh token of the body without verifying it.
    For an access token that authenticates and a body token that decodes,
    whatever key it is signed with, both carrying an exp that a datetime
    can hold (a second of the years 1 to 9999) and fresh, distinct,
    non-empty jtis, and the status commit, the re-read after it and the
    two ledger commits going through: the route answers
    "Successfully logged out"; afterwards the access token is
    refused with 401 "Token has been revoked" until its exp, the jti named
    by the body token is revoked until the exp that token states, and a
    verifiable refresh token with that jti is refused with 401 "Refresh
    token has been revoked". *)
Theorem logout_route_revokes_both :
  forall (cfg : Settings) (w : World) (now : Z) (u : User)
         (ca : token_claims) (ka : string) (ja : string) (ea : Z)
         (cr : token_claims) (kr : string) (jr : string) (er : Z),
    result_of (get_current_user cfg now (Jwt ca ka)) w = Ok u ->
    c_jti ca = Some ja -> c_exp ca = Some ea -> ja <> ""%string ->
    c_jti cr = Some jr -> c_exp cr = Some er -> jr <> ""%string ->
    MIN_TIMESTAMP <= ea <= MAX_TIMESTAMP ->
    MIN_TIMESTAMP <= er <= MAX_TIMESTAMP ->
    ja <> jr ->
    ledger_row ja (token_blacklist (store w)) = None ->
    ledger_row jr (token_blacklist (store w)) = None ->
    commits_ok 4 w ->
    let m := post_auth_logout cfg now (Jwt ca ka) (Jwt cr kr) in
    result_of m w = Ok "Successfully logged out"%string
    /\ (forall now', now' < ea ->
          result_of (get_current_user cfg now' (Jwt ca ka)) (snd (m w)) = Raise exn_revoked)
    /\ (forall now', now' < er -> is_token_blacklisted now' (store_after m w) jr = true)
    /\ (forall now' sub c',
          now' < er -> c_sub c' = Some sub -> c_jti c' = Some jr -> c_exp c' = Some er ->
          type_is c' "refresh" = true ->
          result_of (verify_refresh_token cfg now' (Jwt c' (SECRET_KEY cfg))) (snd (m w))
          = Raise exn_refresh_revoked).
Proof.
  intros cfg w now u ca ka ja ea cr kr jr er Hv Hja Hea Hnea Hjr Her Hner Hra Hrr
    Hne Hfa Hfr Hok m.
  destruct (@logout_user_both u ca ka ja ea cr kr jr er w Hja Hnea Hjr Hner Hne Hfa Hfr Hok)
    as (w1 & R & L & _).
  assert (E : m w = (Ok "Successfully logged out"%string, w1)).
  { subst m. unfold post_auth_logout. unfold bind at 1.
    rewrite (get_current_user_run _ _ _ _ Hv).
    unfold try_except, bind, lift. simpl jwt_get_unverified_claims.
    cbv iota beta. rewrite (exp_of_in_range ca Hea Hra). cbv iota beta.
    rewrite (exp_of_in_range cr Her Hrr). cbv iota beta. rewrite R. reflexivity. }
  unfold result_of at 1. unfold store_after. rewrite E. cbn [fst snd].
  assert (Ba : forall now', now' < ea -> is_token_blacklisted now' (store w1) ja = true).
  { intros now' Hlt. apply is_token_blacklisted_true.
    exists {| tb_jti := ja; tb_token := Jwt ca ka; tb_expires_at := ea |}.
    rewrite L. split; [apply in_or_app; right; left; reflexivity|]. auto. }
  assert (Br : forall now', now' < er -> is_token_blacklisted now' (store w1) jr = true).
  { intros now' Hlt. apply is_token_blacklisted_true.
    exists {| tb_jti := jr; tb_token := Jwt cr kr; tb_expires_at := er |}.
    rewrite L. split; [apply in_or_app; right; right; left; reflexivity|]. auto. }
  split; [reflexivity|]. split; [|split; [exact Br|]].
  - intros now' Hlt.
    apply verify_token_ok in Hv.
    destruct Hv as (Hk & _ & Ht & sub & j & Hs & Hj & _ & _). subst ka.
    rewrite Hja in Hj. inversion Hj; subst j.
    unfold result_of, get_current_user.
    rewrite (@verify_token_signed cfg now' ca "access" _ _ w1 sub ja ea Hs Hja Hea Ht);
      [|lia].
    rewrite (Ba now' Hlt). reflexivity.
  - intros now' sub c' Hlt Hs Hj He Ht.
    unfold result_of, verify_refresh_token.
    rewrite (@verify_token_signed cfg now' c' "refresh" _ _ w1 sub jr er Hs Hj He Ht);
      [|lia].
    rewrite (Br now' Hlt). reflexivity.
Qed.

Lemma logout_route_revokes_both_witness :
  is_token_blacklisted 3000
    (store_after
       (post_auth_logout example_settings 1500
          (fst (create_access_token example_settings 1000 "j1" "u1" (Some 1800)))
          (Jwt (mkClaims None (Some "victim"%string) (Some 9000) None None) "any key"))
       (session_world [] [])) "victim" = true.
Proof.
  destruct (@logout_route_revokes_both example_settings (session_world [] []) 1500 alice
              {| c_sub := Some "u1"%string; c_jti := Some "j1"%string;
                 c_exp := Some 2800; c_iat := Some 1000;
                 c_type := Some "access"%string |}
              "secret" "j1" 2800
              (mkClaims None (Some "victim"%string) (Some 9000) None None)
              "any key" "victim" 9000)
    as (_ & _ & H & _);
    [reflexivity|reflexivity|reflexivity|discriminate|reflexivity|reflexivity
    |discriminate|unfold MIN_TIMESTAMP, MAX_TIMESTAMP; lia
    |unfold MIN_TIMESTAMP, MAX_TIMESTAMP; lia
    |discriminate|reflexivity|reflexivity|reflexivity|].
  apply H. lia.
Defined.

(** X22.  POST /auth/logout with a body token that does not decode, or
    that carries no exp, or whose exp is one no datetime can hold (before
    the year 1 or after the year 9999), is answered 500 "Error occurred
    during logout" and changes nothing: the user's status is as before and
    the access token is not revoked, although it authenticated the
    request. *)
Theorem logout_route_bad_refresh_token :
  forall (cfg : Settings) (w : World) (now : Z) (u : User) (tok refresh_token : token),
    result_of (get_current_user cfg now tok) w = Ok u ->
    jwt_get_unverified_claims refresh_token = Raise JWTError
    \/ (exists cr kr, refresh_token = Jwt cr kr /\ c_exp cr = None)
    \/ (exists cr kr e, refresh_token = Jwt cr kr /\ c_exp cr = Some e
                        /\ (e < MIN_TIMESTAMP \/ MAX_TIMESTAMP < e)) ->
    post_auth_logout cfg now tok refresh_token w = (Raise exn_logout, w).
Proof.
  intros cfg w now u tok rt Hv Hbad.
  unfold post_auth_logout. unfold bind at 1.
  rewrite (get_current_user_run _ _ _ _ Hv).
  destruct tok as [raw|ca ka]; [vm_compute in Hv; discriminate|].
  unfold try_except, bind, lift, raise. simpl jwt_get_unverified_claims.
  cbv iota beta.
  destruct (exp_of ca) as [ea|x] eqn:Ha;
    [|rewrite (exp_of_raise ca Ha); reflexivity].
  destruct Hbad as [Hg|[(cr & kr & -> & He)|(cr & kr & e & -> & He & Hr)]].
  - rewrite Hg. reflexivity.
  - simpl. unfold exp_of. rewrite He. reflexivity.
  - simpl. rewrite (exp_of_out_of_range cr He Hr). reflexivity.
Qed.

Lemma logout_route_bad_refresh_token_witness :
  post_auth_logout example_settings 1500
    (fst (create_access_token example_settings 1000 "j1" "u1" (Some 1800)))
    (Garbage "not a token") (session_world [] [])
  = (Raise exn_logout, session_world [] [])
  /\ post_auth_logout example_settings 1500
       (fst (create_access_token example_settings 1000 "j1" "u1" (Some 1800)))
       (Jwt (mkClaims None (Some "victim"%string) (Some 1000000000000) None None) "any key")
       (session_world [] [])
     = (Raise exn_logout, session_world [] []).
Proof.
  split.
  - apply (@logout_route_bad_refresh_token example_settings (session_world [] []) 1500 alice).
    + reflexivity.
    + left. reflexivity.
  - apply (@logout_route_bad_refresh_token example_settings (session_world [] []) 1500 alice).
    + reflexivity.
    + right. right. eexists _, _, _. split; [reflexivity|]. split; [reflexivity|].
      right. unfold MAX_TIMESTAMP. lia.
Defined.
